(** * pipeline.py: the training loop of the semantic segmentation skeleton

    A shallow embedding of [SemanticSegmentationTrainer],
    [SemanticSegmentationDataset.__getitem__] and
    [SemanticSegmentationPipeline.run], and the bookkeeping properties of
    early stopping, checkpointing and experiment logging.

    The tensor library (model, criterion, optimizer, data loaders) is an
    interface of the embedding, see [Torch]; everything the script itself
    decides is a definition below. *)

From Stdlib Require Import ZArith List String Ascii Bool Lia Sorted Finite.
From Stdlib Require Import SpecFloat DecimalString DecimalPos DecimalZ.
Import ListNotations.
Local Open Scope string_scope.
Local Open Scope list_scope.
Local Open Scope Z_scope.

(** ** Python values *)

(** A Python [float] is an IEEE 754 binary64 number. *)
Definition float : Type := spec_float.
Definition prec : Z := 53.
Definition emax : Z := 1024.

(** [float('inf')] *)
Definition float_inf : float := S754_infinity false.
Definition float_zero : float := S754_zero false.

(** [a < b] on floats; [False] as soon as one side is NaN. *)
Definition float_lt (a b : float) : bool := SFltb a b.
Definition float_le (a b : float) : bool := SFleb a b.
Definition float_add (a b : float) : float := SFadd prec emax a b.
Definition float_div (a b : float) : float := SFdiv prec emax a b.

Definition is_nan (a : float) : bool :=
  match a with S754_nan => true | _ => false end.

(** [float(z)] for an integer small enough to convert (a loader length). *)
Definition float_of_int (z : Z) : float := binary_normalize prec emax z 0 false.

(** The value of [total_loss]: the integer literal [0] before the first
    batch, a float afterwards. *)
Inductive number : Type :=
| Int (z : Z)
| Float (f : float).

Definition to_float (a : number) : float :=
  match a with
  | Int z => float_of_int z
  | Float f => f
  end.

Inductive exn : Type :=
| TypeError
| ZeroDivisionError
| ValueError
| FileNotFoundError.

Inductive result (A : Type) : Type :=
| Ok (a : A)
| Raise (e : exn).
Arguments Ok {A} a.
Arguments Raise {A} e.

(** [total += x] with [x] a float. *)
Definition number_add (total : number) (x : float) : number :=
  Float (float_add (to_float total) x).

(** [total / n] with [n] an integer: true division, which raises on [0];
    [mean] is its value when it has one. *)
Definition mean (total : number) (n : Z) : float :=
  float_div (to_float total) (float_of_int n).

Definition truediv (total : number) (n : Z) : result float :=
  if n =? 0 then Raise ZeroDivisionError else Ok (mean total n).

(** What may be bound to the [patience] parameter: the integer it is meant
    to be, or the string [run] passes. *)
Inductive pyval : Type :=
| PInt (z : Z)
| PStr (s : string).

(** [counter >= patience] with an integer on the left: integers compare,
    an integer and a string do not. *)
Definition int_ge (a : Z) (b : pyval) : result bool :=
  match b with
  | PInt p => Ok (p <=? a)
  | PStr _ => Raise TypeError
  end.

(** [str(z)] for an integer. *)
Definition str_of_int (z : Z) : string := NilZero.string_of_int (Z.to_int z).

(** [os.path.join(a, b)] on a POSIX system. *)
Definition startswith_sep (s : string) : bool :=
  match s with
  | String c _ => Ascii.eqb c "/"
  | EmptyString => false
  end.

Fixpoint endswith_sep (s : string) : bool :=
  match s with
  | EmptyString => false
  | String c EmptyString => Ascii.eqb c "/"
  | String _ rest => endswith_sep rest
  end.

Definition os_path_join (a b : string) : string :=
  if startswith_sep b then b
  else if (String.length a =? 0)%nat || endswith_sep a then (a ++ b)%string
  else (a ++ "/" ++ b)%string.

(** [os.path.basename(p)]: what follows the last separator. *)
Fixpoint has_sep (s : string) : bool :=
  match s with
  | EmptyString => false
  | String c rest => Ascii.eqb c "/" || has_sep rest
  end.

Fixpoint basename (s : string) : string :=
  match s with
  | EmptyString => EmptyString
  | String c rest =>
      if has_sep rest then basename rest
      else if Ascii.eqb c "/" then rest else s
  end.

(** [range(n)] *)
Definition range (n : Z) : list Z := map Z.of_nat (seq 0 (Z.to_nat n)).

(** ** The tensor library as an interface *)

(** A transform step of torchvision. *)
Inductive transform_step : Type :=
| Resize (size : list Z)
| ToTensor.

(** [transforms.Compose(steps)] *)
Inductive transform : Type :=
| Compose (steps : list transform_step).

Class Torch : Type := {
  (** parameters of the model together with the state of the optimizer *)
  net : Type;
  (** a pair (images, masks) yielded by a loader *)
  batch : Type;
  (** what [state_dict()] returns *)
  state_dict : Type;
  (** an image, a mask or a tensor made from one *)
  image : Type;
  (** [zero_grad], forward pass, criterion, [backward], [step]; the float is
      [loss.item()] *)
  train_step : net -> batch -> net * float;
  (** forward pass and criterion under [no_grad]; the float is
      [val_loss.item()] *)
  val_step : net -> batch -> float;
  model_state_dict : net -> state_dict;
  optimizer_state_dict : net -> state_dict;
  (** [UNet()] followed by the construction of the criterion and of the
      optimizer on its parameters.  The placeholder class of the source
      declares [__init__] without [self], so that for it this is
      [Raise TypeError]; a model written in its place returns its state. *)
  UNet_new : result net;
  (** [VOCSegmentation(root, year, image_set, download=True, transform)[idx]] *)
  voc_sample :
    string -> string -> string -> option transform -> Z -> result (image * image);
  (** the batches of [DataLoader(dataset, batch_size, shuffle)] during an
      epoch, for the dataset of a root, year and image set under a seed *)
  data_loader : string -> string -> string -> Z -> bool -> Z -> Z -> list batch;
  (** a resize to a size the library accepts, and the conversion to a tensor *)
  resize_image : list Z -> image -> image;
  to_tensor : image -> image;
  (** [a, b = x] for a tensor [x] *)
  unpack_pair : image -> result (image * image);
}.

Section Model.
Context `{Torch}.

(** A value stored in a dictionary handed to [torch.save] or to wandb. *)
Inductive pyobj : Type :=
| OInt (z : Z)
| OFloat (f : float)
| OStr (s : string)
| OState (s : state_dict).

(** A dict literal with distinct keys, in insertion order. *)
Definition dict : Type := list (string * pyobj).

Inductive log_message : Type :=
| TrainingLoss (epoch : Z) (avg_loss : float)
| ValidationLoss (epoch : Z) (avg_val_loss : float)
| EarlyStoppingAt (epoch : Z)
| CheckpointSaved (epoch : Z).

(** What the script does to the outside world. *)
Inductive event : Type :=
| LoggerInfo (msg : log_message)
| WandbInit (project : option string)
| WandbConfigUpdate (config : dict)
| WandbLog (record : dict)
| WandbFinish
| TorchSave (obj : dict) (path : string)
| MakeDirs (path : string).

(** ** SemanticSegmentationDataset *)

(** The wrapped [VOCSegmentation] object: [voc_transform] is its
    [transform] attribute and [sample idx] is what [self.dataset[idx]]
    evaluates to. *)
Record VOCSegmentation : Type := {
  voc_transform : option transform;
  sample : Z -> result (image * image);
}.

(** [loader e] lists the batches the [DataLoader] yields when it is
    iterated during epoch [e]; its length is [len(loader)]. *)
Definition DataLoader : Type := Z -> list batch.

Record SemanticSegmentationDataset : Type := {
  dataset : VOCSegmentation;
  loader : DataLoader;
}.

(** The seeding of the three random generators is part of [data_loader]. *)
Definition SemanticSegmentationDataset_init (root year image_set : string)
    (transform : option transform) (batch_size : Z) (shuffle : bool) (seed : Z)
  : SemanticSegmentationDataset :=
  {| dataset := {| voc_transform := transform;
                   sample := voc_sample root year image_set transform |};
     loader := data_loader root year image_set batch_size shuffle seed |}.

(** Modelled from the spec: torchvision's [Resize], which this repository
    only calls.  A size is functional when it has one or two components. *)
Definition resize_size_ok (size : list Z) : bool :=
  match size with
  | [_] | [_; _] => true
  | _ => false
  end.

Definition apply_step (step : transform_step) (img : image) : result image :=
  match step with
  | Resize size =>
      if resize_size_ok size then Ok (resize_image size img) else Raise ValueError
  | ToTensor => Ok (to_tensor img)
  end.

Fixpoint apply_steps (steps : list transform_step) (img : image) : result image :=
  match steps with
  | [] => Ok img
  | step :: rest =>
      match apply_step step img with
      | Ok img' => apply_steps rest img'
      | Raise e => Raise e
      end
  end.

(** Modelled from the spec: the composed transform has a one-argument
    signature, [__call__(self, img)]; a call with another number of
    positional arguments raises [TypeError] before any step runs. *)
Definition call_transform (t : transform) (args : list image) : result image :=
  match t, args with
  | Compose steps, [img] => apply_steps steps img
  | Compose _, _ => Raise TypeError
  end.

Definition getitem (self : SemanticSegmentationDataset) (idx : Z)
  : result (image * image) :=
  match sample (dataset self) idx with
  | Raise e => Raise e
  | Ok (img, mask) =>
      match voc_transform (dataset self) with
      | Some t =>
          match call_transform t [img; mask] with
          | Ok out => unpack_pair out
          | Raise e => Raise e
          end
      | None => Ok (img, mask)
      end
  end.

(** ** SemanticSegmentationTrainer *)

Record Trainer : Type := {
  model : net;
  train_loader : SemanticSegmentationDataset;
  val_loader : SemanticSegmentationDataset;
  num_epochs : pyval;
  patience : pyval;
  log_dir : pyval;
  early_stopping_counter : Z;
  best_val_loss : float;
}.

Definition set_model (m : net) (t : Trainer) : Trainer :=
  {| model := m; train_loader := train_loader t; val_loader := val_loader t;
     num_epochs := num_epochs t; patience := patience t; log_dir := log_dir t;
     early_stopping_counter := early_stopping_counter t;
     best_val_loss := best_val_loss t |}.

Definition set_early_stopping_counter (c : Z) (t : Trainer) : Trainer :=
  {| model := model t; train_loader := train_loader t;
     val_loader := val_loader t; num_epochs := num_epochs t;
     patience := patience t; log_dir := log_dir t;
     early_stopping_counter := c; best_val_loss := best_val_loss t |}.

Definition set_best_val_loss (v : float) (t : Trainer) : Trainer :=
  {| model := model t; train_loader := train_loader t;
     val_loader := val_loader t; num_epochs := num_epochs t;
     patience := patience t; log_dir := log_dir t;
     early_stopping_counter := early_stopping_counter t; best_val_loss := v |}.

(** [os.makedirs(path)] *)
Definition os_makedirs (path : pyval) : result unit * list event :=
  match path with
  | PStr "" => (Raise FileNotFoundError, [])
  | PStr d => (Ok tt, [MakeDirs d])
  | PInt _ => (Raise TypeError, [])
  end.

(** [SemanticSegmentationTrainer(model, train_loader, val_loader, criterion,
    optimizer, *args)]: [args] are the positional arguments after the five
    required ones; they bind, in this order, to [num_epochs=10],
    [patience=5] and [log_dir='logs'].  [path_exists] is [os.path.exists]
    on the file system of the call. *)
Definition Trainer_init (model : net)
    (train_loader val_loader : SemanticSegmentationDataset)
    (args : list pyval) (path_exists : pyval -> bool)
  : result Trainer * list event :=
  if (3 <? List.length args)%nat then (Raise TypeError, [])
  else
    let self :=
      {| model := model; train_loader := train_loader; val_loader := val_loader;
         num_epochs := nth 0 args (PInt 10);
         patience := nth 1 args (PInt 5);
         log_dir := nth 2 args (PStr "logs");
         early_stopping_counter := 0;
         best_val_loss := float_inf |} in
    if path_exists (log_dir self) then (Ok self, [])
    else
      match os_makedirs (log_dir self) with
      | (Ok _, ev) => (Ok self, ev)
      | (Raise e, ev) => (Raise e, ev)
      end.

(** A method of the trainer: it reads and updates [self], may raise, and
    leaves a trace of events.  The state reached and the events emitted
    before an exception are kept. *)
Definition M (A : Type) : Type := Trainer -> result A * Trainer * list event.

Definition ret {A} (a : A) : M A := fun t => (Ok a, t, []).

Definition bind {A B} (m : M A) (f : A -> M B) : M B :=
  fun t =>
    match m t with
    | (Ok a, t1, ev1) =>
        match f a t1 with
        | (r, t2, ev2) => (r, t2, ev1 ++ ev2)
        end
    | (Raise e, t1, ev1) => (Raise e, t1, ev1)
    end.

Definition get : M Trainer := fun t => (Ok t, t, []).
Definition modify (f : Trainer -> Trainer) : M unit := fun t => (Ok tt, f t, []).
Definition emit (e : event) : M unit := fun t => (Ok tt, t, [e]).
Definition lift {A} (r : result A) : M A := fun t => (r, t, []).

(** The three components of a run of a method. *)
Definition result_of {A} (x : result A * Trainer * list event) : result A :=
  fst (fst x).
Definition state_of {A} (x : result A * Trainer * list event) : Trainer :=
  snd (fst x).
Definition events_of {A} (x : result A * Trainer * list event) : list event :=
  snd x.

Notation "x <- m ;; k" := (bind m (fun x => k))
  (at level 61, m at next level, right associativity).
Notation "m ;; k" := (bind m (fun _ => k))
  (at level 61, right associativity).

Definition logger_info (msg : log_message) : M unit := emit (LoggerInfo msg).

Definition checkpoint_name (epoch : Z) : string :=
  ("checkpoint_epoch_" ++ str_of_int epoch ++ ".pt")%string.

(** [os.path.join(self.log_dir, name)] *)
Definition checkpoint_path (log_dir : pyval) (name : string) : result string :=
  match log_dir with
  | PStr d => Ok (os_path_join d name)
  | PInt _ => Raise TypeError
  end.

Definition checkpoint_record (epoch : Z) (model_state optimizer_state : state_dict)
    (train_loss val_loss : float) : dict :=
  [ ("epoch", OInt epoch);
    ("model_state_dict", OState model_state);
    ("optimizer_state_dict", OState optimizer_state);
    ("train_loss", OFloat train_loss);
    ("val_loss", OFloat val_loss) ].

Definition save_checkpoint (epoch : Z) (model_state optimizer_state : state_dict)
    (train_loss val_loss : float) : M unit :=
  let checkpoint :=
    checkpoint_record epoch model_state optimizer_state train_loss val_loss in
  self <- get ;;
  checkpoint_path <- lift (checkpoint_path (log_dir self) (checkpoint_name epoch)) ;;
  emit (TorchSave checkpoint checkpoint_path) ;;
  logger_info (CheckpointSaved epoch).

Definition early_stopping (val_loss : float) : M bool :=
  self <- get ;;
  (if float_lt val_loss (best_val_loss self)
   then modify (set_best_val_loss val_loss) ;;
        modify (set_early_stopping_counter 0)
   else modify (set_early_stopping_counter (early_stopping_counter self + 1))) ;;
  self <- get ;;
  lift (int_ge (early_stopping_counter self) (patience self)).

Definition wandb_record (epoch : Z) (train_loss val_loss : float) : dict :=
  [ ("epoch", OInt epoch);
    ("train_loss", OFloat train_loss);
    ("val_loss", OFloat val_loss) ].

Definition log_to_wandb (epoch : Z) (train_loss val_loss : float) : M unit :=
  emit (WandbLog (wandb_record epoch train_loss val_loss)).

(** The loop over the training batches of one epoch. *)
Fixpoint train_batches (batches : list batch) (total_loss : number) : M number :=
  match batches with
  | [] => ret total_loss
  | b :: rest =>
      self <- get ;;
      let '(m, loss) := train_step (model self) b in
      modify (set_model m) ;;
      train_batches rest (number_add total_loss loss)
  end.

(** The loop over the validation batches of one epoch. *)
Fixpoint val_batches (batches : list batch) (total_val_loss : number) : M number :=
  match batches with
  | [] => ret total_val_loss
  | b :: rest =>
      self <- get ;;
      let val_loss := val_step (model self) b in
      val_batches rest (number_add total_val_loss val_loss)
  end.

Definition len {A} (l : list A) : Z := Z.of_nat (List.length l).

(** The body of the epoch loop; the boolean says whether it ends in [break].
    The switches [model.train()] and [model.eval()] and the [no_grad] block
    are part of [train_step] and [val_step]. *)
Definition epoch_body (epoch : Z) : M bool :=
  self <- get ;;
  total_loss <- train_batches (loader (train_loader self) epoch) (Int 0) ;;
  avg_loss <- lift (truediv total_loss (len (loader (train_loader self) epoch))) ;;
  logger_info (TrainingLoss epoch avg_loss) ;;
  total_val_loss <- val_batches (loader (val_loader self) epoch) (Int 0) ;;
  avg_val_loss <-
    lift (truediv total_val_loss (len (loader (val_loader self) epoch))) ;;
  logger_info (ValidationLoss epoch avg_val_loss) ;;
  log_to_wandb epoch avg_loss avg_val_loss ;;
  stop <- early_stopping avg_val_loss ;;
  if stop : bool then
    logger_info (EarlyStoppingAt epoch) ;;
    ret true
  else
    self <- get ;;
    save_checkpoint epoch (model_state_dict (model self))
      (optimizer_state_dict (model self)) avg_loss avg_val_loss ;;
    ret false.

(** [for epoch in epochs: body], where the body may [break]. *)
Fixpoint for_epochs (body : Z -> M bool) (epochs : list Z) : M unit :=
  match epochs with
  | [] => ret tt
  | epoch :: rest =>
      stop <- body epoch ;;
      if stop : bool then ret tt else for_epochs body rest
  end.

(** [range(self.num_epochs)] *)
Definition epochs_of (num_epochs : pyval) : result (list Z) :=
  match num_epochs with
  | PInt n => Ok (range n)
  | PStr _ => Raise TypeError
  end.

Definition train : M unit :=
  self <- get ;;
  epochs <- lift (epochs_of (num_epochs self)) ;;
  for_epochs epoch_body epochs.

(** ** SemanticSegmentationPipeline *)

Record Pipeline : Type := {
  pipeline_root : string;
  pipeline_year : string;
  pipeline_train_batch_size : Z;
  pipeline_val_batch_size : Z;
  pipeline_num_epochs : Z;
  pipeline_seed : Z;
  pipeline_log_dir : string;
}.

(** [SemanticSegmentationPipeline()] with every default. *)
Definition Pipeline_default : Pipeline :=
  {| pipeline_root := "./data"; pipeline_year := "2012";
     pipeline_train_batch_size := 64; pipeline_val_batch_size := 64;
     pipeline_num_epochs := 10; pipeline_seed := 42;
     pipeline_log_dir := "logs" |}.

Definition run_config (self : Pipeline) : dict :=
  [ ("root", OStr (pipeline_root self));
    ("year", OStr (pipeline_year self));
    ("train_batch_size", OInt (pipeline_train_batch_size self));
    ("val_batch_size", OInt (pipeline_val_batch_size self));
    ("num_epochs", OInt (pipeline_num_epochs self));
    ("seed", OInt (pipeline_seed self));
    ("log_dir", OStr (pipeline_log_dir self)) ].

Definition run_transform : transform :=
  Compose [Resize [224; 224; 3]; ToTensor].

Definition run_train_dataset (self : Pipeline) : SemanticSegmentationDataset :=
  SemanticSegmentationDataset_init (pipeline_root self) (pipeline_year self)
    "train" (Some run_transform) (pipeline_train_batch_size self) true
    (pipeline_seed self).

Definition run_val_dataset (self : Pipeline) : SemanticSegmentationDataset :=
  SemanticSegmentationDataset_init (pipeline_root self) (pipeline_year self)
    "val" (Some run_transform) (pipeline_val_batch_size self) false
    (pipeline_seed self).

(** The constructor call at the end of [run]: seven positional arguments,
    the last two being [self.num_epochs] and [self.log_dir]. *)
Definition run_trainer (self : Pipeline) (model : net)
    (path_exists : pyval -> bool) : result Trainer * list event :=
  Trainer_init model (run_train_dataset self) (run_val_dataset self)
    [PInt (pipeline_num_epochs self); PStr (pipeline_log_dir self)]
    path_exists.

(** A step of the script outside the trainer: a result and the events on
    the way to it. *)
Definition and_then {A B} (m : result A * list event)
    (f : A -> result B * list event) : result B * list event :=
  match m with
  | (Ok a, ev1) => let '(r, ev2) := f a in (r, ev1 ++ ev2)
  | (Raise e, ev1) => (Raise e, ev1)
  end.

Definition run (self : Pipeline) (path_exists : pyval -> bool)
  : result unit * list event :=
  and_then (Ok tt, [WandbInit None]) (fun _ =>
  and_then (Ok tt, [WandbConfigUpdate (run_config self)]) (fun _ =>
  and_then (UNet_new, []) (fun model =>
  and_then (run_trainer self model path_exists) (fun trainer =>
  let '(r, _, ev) := train trainer in (r, ev))))).

(** The script run as a program. *)
Definition main (path_exists : pyval -> bool) : result unit * list event :=
  and_then (Ok tt, [WandbInit (Some "semantic-segmentation")]) (fun _ =>
  and_then (run Pipeline_default path_exists) (fun _ =>
  (Ok tt, [WandbFinish]))).

(** ** The run of [train] in closed form

    The same computation without the monad: what one pass over the loaders
    leaves in the model and in the running totals, the state of [self]
    after the body of an epoch, and the trainer at the start of epoch [k]. *)

Fixpoint train_pass (m : net) (batches : list batch) (total_loss : number)
  : net * number :=
  match batches with
  | [] => (m, total_loss)
  | b :: rest =>
      let '(m', loss) := train_step m b in
      train_pass m' rest (number_add total_loss loss)
  end.

Fixpoint val_pass (m : net) (batches : list batch) (total_val_loss : number)
  : number :=
  match batches with
  | [] => total_val_loss
  | b :: rest => val_pass m rest (number_add total_val_loss (val_step m b))
  end.

(** The update of the two scalars by [early_stopping]. *)
Definition es_update (val_loss : float) (t : Trainer) : Trainer :=
  if float_lt val_loss (best_val_loss t)
  then set_early_stopping_counter 0 (set_best_val_loss val_loss t)
  else set_early_stopping_counter (early_stopping_counter t + 1) t.

Definition avg_loss_in (epoch : Z) (t : Trainer) : float :=
  let batches := loader (train_loader t) epoch in
  mean (snd (train_pass (model t) batches (Int 0))) (len batches).

Definition avg_val_loss_in (epoch : Z) (t : Trainer) : float :=
  let m := fst (train_pass (model t) (loader (train_loader t) epoch) (Int 0)) in
  let batches := loader (val_loader t) epoch in
  mean (val_pass m batches (Int 0)) (len batches).

(** [self] at the end of the body of [epoch], entered with [self = t]. *)
Definition after_epoch (epoch : Z) (t : Trainer) : Trainer :=
  let m := fst (train_pass (model t) (loader (train_loader t) epoch) (Int 0)) in
  es_update (avg_val_loss_in epoch t) (set_model m t).

(** [self] at the start of epoch [k] of a run entered with [self = t]. *)
Fixpoint trainer_at (t : Trainer) (k : nat) : Trainer :=
  match k with
  | O => t
  | S k' => after_epoch (Z.of_nat k') (trainer_at t k')
  end.

(** The three events every epoch emits before the early stopping check. *)
Definition epoch_report (epoch : Z) (t : Trainer) : list event :=
  [ LoggerInfo (TrainingLoss epoch (avg_loss_in epoch t));
    LoggerInfo (ValidationLoss epoch (avg_val_loss_in epoch t));
    WandbLog (wandb_record epoch (avg_loss_in epoch t) (avg_val_loss_in epoch t)) ].

(** What epoch [k] of a run entered with [self = t] sends to wandb. *)
Definition epoch_record (t : Trainer) (k : nat) : dict :=
  wandb_record (Z.of_nat k)
    (avg_loss_in (Z.of_nat k) (trainer_at t k))
    (avg_val_loss_in (Z.of_nat k) (trainer_at t k)).

Definition epoch_checkpoint (epoch : Z) (t : Trainer) : dict :=
  let m := model (after_epoch epoch t) in
  checkpoint_record epoch (model_state_dict m) (optimizer_state_dict m)
    (avg_loss_in epoch t) (avg_val_loss_in epoch t).

(** The body of an epoch whose two loaders are not empty. *)
Definition epoch_spec (epoch : Z) (t : Trainer) : result bool * Trainer * list event :=
  let t' := after_epoch epoch t in
  match int_ge (early_stopping_counter t') (patience t) with
  | Raise x => (Raise x, t', epoch_report epoch t)
  | Ok true =>
      (Ok true, t', epoch_report epoch t ++ [LoggerInfo (EarlyStoppingAt epoch)])
  | Ok false =>
      match checkpoint_path (log_dir t) (checkpoint_name epoch) with
      | Ok path =>
          (Ok false, t',
           epoch_report epoch t ++
           [TorchSave (epoch_checkpoint epoch t) path;
            LoggerInfo (CheckpointSaved epoch)])
      | Raise x => (Raise x, t', epoch_report epoch t)
      end
  end.

(** The events of an epoch that ends with a checkpoint in directory [d], and
    of an epoch that ends in [break]. *)
Definition saved_events (t : Trainer) (d : string) (k : nat) : list event :=
  let e := Z.of_nat k in
  epoch_report e (trainer_at t k) ++
  [ TorchSave (epoch_checkpoint e (trainer_at t k))
      (os_path_join d (checkpoint_name e));
    LoggerInfo (CheckpointSaved e) ].

Definition stopped_events (t : Trainer) (k : nat) : list event :=
  let e := Z.of_nat k in
  epoch_report e (trainer_at t k) ++ [LoggerInfo (EarlyStoppingAt e)].

(** Both loaders yield at least one batch in every epoch below [n]. *)
Definition loaders_nonempty (t : Trainer) (n : Z) : Prop :=
  forall e, 0 <= e < n ->
    loader (train_loader t) e <> [] /\ loader (val_loader t) e <> [].

(** Whether the early stopping check of epoch [k] succeeds under an integer
    patience [p], and the first epoch below [n] at which it does. *)
Definition triggers (t : Trainer) (p : Z) (k : nat) : bool :=
  p <=? early_stopping_counter (trainer_at t (S k)).

Definition first_trigger (t : Trainer) (p : Z) (n : Z) : option nat :=
  find (triggers t p) (seq 0 (Z.to_nat n)).

(** Whether the validation loss of epoch [j] is strictly below the best one
    seen before it. *)
Definition improves (t : Trainer) (j : nat) : bool :=
  float_lt (avg_val_loss_in (Z.of_nat j) (trainer_at t j))
           (best_val_loss (trainer_at t j)).

(** ** Reading a trace *)

Definition started_epochs (evs : list event) : list Z :=
  flat_map (fun ev =>
    match ev with LoggerInfo (TrainingLoss e _) => [e] | _ => [] end) evs.

Definition early_stop_epochs (evs : list event) : list Z :=
  flat_map (fun ev =>
    match ev with LoggerInfo (EarlyStoppingAt e) => [e] | _ => [] end) evs.

Definition wandb_logs (evs : list event) : list dict :=
  flat_map (fun ev => match ev with WandbLog r => [r] | _ => [] end) evs.

(** The files written by [torch.save], oldest first. *)
Definition saved_files (evs : list event) : list (string * dict) :=
  flat_map (fun ev =>
    match ev with TorchSave obj path => [(path, obj)] | _ => [] end) evs.

(** The [epoch] field of every checkpoint written. *)
Definition checkpoint_epochs (evs : list event) : list Z :=
  flat_map (fun f =>
    match snd f with ("epoch", OInt e) :: _ => [e] | _ => [] end)
    (saved_files evs).

Definition keys (d : dict) : list string := map fst d.

(** ** A sequence of calls to [early_stopping] *)

(** [self] after [early_stopping] was called on each loss in turn. *)
Definition early_stopping_calls (losses : list float) (t : Trainer) : Trainer :=
  fold_left (fun self v => state_of (early_stopping v self)) losses t.

(** [m] is a minimum of [l]: one of its elements, not NaN, and below or
    equal to every element that is a number. *)
Definition is_minimum (m : float) (l : list float) : Prop :=
  In m l /\ is_nan m = false /\
  Forall (fun x => is_nan x = false -> float_le m x = true) l.

(** [d[key]] on a dict literal, [None] for a missing key. *)
Fixpoint lookup (key : string) (d : dict) : option pyobj :=
  match d with
  | [] => None
  | (k, v) :: rest => if String.eqb k key then Some v else lookup key rest
  end.

(** The same trainer constructed with another [patience]. *)
Definition set_patience (p : pyval) (t : Trainer) : Trainer :=
  {| model := model t; train_loader := train_loader t;
     val_loader := val_loader t; num_epochs := num_epochs t;
     patience := p; log_dir := log_dir t;
     early_stopping_counter := early_stopping_counter t;
     best_val_loss := best_val_loss t |}.

(** The epoch and the two losses a record holds, read by key. *)
Definition losses_of (d : dict) : option pyobj * option pyobj * option pyobj :=
  (lookup "epoch" d, lookup "train_loss" d, lookup "val_loss" d).

(** The fields [__init__] sets from its arguments and no method assigns. *)
Definition same_configuration (t u : Trainer) : Prop :=
  train_loader u = train_loader t /\ val_loader u = val_loader t /\
  num_epochs u = num_epochs t /\ patience u = patience t /\
  log_dir u = log_dir t.

(** [best_val_loss] of [u] is the one of [t] or strictly below it, is a
    number, and the counter of [u] is not negative. *)
Definition scalars_sound (t u : Trainer) : Prop :=
  0 <= early_stopping_counter u /\
  is_nan (best_val_loss u) = false /\
  (best_val_loss u = best_val_loss t \/
   float_lt (best_val_loss u) (best_val_loss t) = true).

End Model.

(** ** A small instance of the interface

    The state of the model counts the optimizer steps taken, a batch is the
    loss the criterion gives on it, and images are sizes. *)
#[local] Instance counting_torch : Torch := {|
  net := Z;
  batch := float;
  state_dict := Z;
  image := list Z;
  train_step := fun m b => (m + 1, b);
  val_step := fun _ b => b;
  model_state_dict := fun m => m;
  optimizer_state_dict := fun m => - m;
  UNet_new := Ok 0;
  voc_sample := fun _ _ _ _ idx => Ok ([idx], [idx]);
  data_loader := fun _ _ _ _ _ _ _ => [S754_zero false];
  resize_image := fun size _ => size;
  to_tensor := fun img => img;
  unpack_pair := fun _ => Raise ValueError;
|}.

Definition one_batch (losses : list float) : SemanticSegmentationDataset :=
  {| dataset := {| voc_transform := None;
                   sample := fun idx => Ok ([idx], [idx]) |};
     loader := fun e => [nth (Z.to_nat e) losses float_zero] |}.

(** A trainer as [__init__] leaves it, whose validation loader yields one
    batch per epoch with the given losses. *)
Definition demo_trainer (n : Z) (p : pyval) (val_losses : list Z) : Trainer :=
  {| model := 0;
     train_loader := one_batch [];
     val_loader := one_batch (map float_of_int val_losses);
     num_epochs := PInt n; patience := p; log_dir := PStr "logs";
     early_stopping_counter := 0; best_val_loss := float_inf |}.

(** A dataset whose loader yields no batch. *)
Definition no_batch : SemanticSegmentationDataset :=
  {| dataset := {| voc_transform := None;
                   sample := fun idx => Ok ([idx], [idx]) |};
     loader := fun _ => [] |}.

(** A fresh trainer on the given two datasets. *)
Definition demo_trainer_on (tl vl : SemanticSegmentationDataset) (n : Z)
    (p : pyval) : Trainer :=
  {| model := 0; train_loader := tl; val_loader := vl;
     num_epochs := PInt n; patience := p; log_dir := PStr "logs";
     early_stopping_counter := 0; best_val_loss := float_inf |}.

(** * Properties *)

Section Properties.
Context `{Torch}.

Ltac unfold_monad :=
  unfold bind, get, modify, emit, lift, ret, logger_info, log_to_wandb in *.

Lemma set_model_same (t : Trainer) : set_model (model t) t = t.
Proof. destruct t; reflexivity. Qed.

(** ** The methods against their closed forms *)

Lemma early_stopping_eq (v : float) (t : Trainer) :
  early_stopping v t =
  (int_ge (early_stopping_counter (es_update v t)) (patience t), es_update v t, []).
Proof.
  unfold early_stopping, es_update; unfold_monad.
  destruct (float_lt v (best_val_loss t)); reflexivity.
Qed.

Lemma train_batches_eq (bs : list batch) :
  forall (total : number) (t : Trainer),
    train_batches bs total t =
    (Ok (snd (train_pass (model t) bs total)),
     set_model (fst (train_pass (model t) bs total)) t, []).
Proof.
  induction bs as [|b bs IH]; intros total t; simpl.
  - unfold ret. now rewrite set_model_same.
  - unfold_monad. destruct (train_step (model t) b) as [m loss] eqn:E.
    rewrite IH. reflexivity.
Qed.

Lemma val_batches_eq (bs : list batch) :
  forall (total : number) (t : Trainer),
    val_batches bs total t = (Ok (val_pass (model t) bs total), t, []).
Proof.
  induction bs as [|b bs IH]; intros total t; simpl.
  - reflexivity.
  - unfold_monad. rewrite IH. reflexivity.
Qed.

Lemma truediv_ok (total : number) (n : Z) :
  n <> 0 -> truediv total n = Ok (mean total n).
Proof.
  intros Hn. unfold truediv. destruct (Z.eqb_spec n 0); [contradiction|reflexivity].
Qed.

Lemma es_update_fields (v : float) (t : Trainer) :
  model (es_update v t) = model t /\
  train_loader (es_update v t) = train_loader t /\
  val_loader (es_update v t) = val_loader t /\
  num_epochs (es_update v t) = num_epochs t /\
  patience (es_update v t) = patience t /\
  log_dir (es_update v t) = log_dir t.
Proof. unfold es_update. destruct (float_lt v (best_val_loss t)); now repeat split. Qed.

Lemma after_epoch_fields (e : Z) (t : Trainer) :
  train_loader (after_epoch e t) = train_loader t /\
  val_loader (after_epoch e t) = val_loader t /\
  num_epochs (after_epoch e t) = num_epochs t /\
  patience (after_epoch e t) = patience t /\
  log_dir (after_epoch e t) = log_dir t.
Proof.
  unfold after_epoch.
  destruct (es_update_fields (avg_val_loss_in e t)
    (set_model (fst (train_pass (model t) (loader (train_loader t) e) (Int 0))) t))
    as (_ & -> & -> & -> & -> & ->).
  now repeat split.
Qed.

Lemma trainer_at_fields (t : Trainer) (k : nat) :
  train_loader (trainer_at t k) = train_loader t /\
  val_loader (trainer_at t k) = val_loader t /\
  num_epochs (trainer_at t k) = num_epochs t /\
  patience (trainer_at t k) = patience t /\
  log_dir (trainer_at t k) = log_dir t.
Proof.
  induction k as [|k IH]; simpl; [now repeat split|].
  destruct (after_epoch_fields (Z.of_nat k) (trainer_at t k))
    as (-> & -> & -> & -> & ->).
  exact IH.
Qed.

Lemma epoch_body_spec (e : Z) (t : Trainer) :
  loader (train_loader t) e <> [] ->
  loader (val_loader t) e <> [] ->
  epoch_body e t = epoch_spec e t.
Proof.
  intros Ht Hv.
  assert (Hlt : len (loader (train_loader t) e) <> 0)
    by (unfold len; destruct (loader (train_loader t) e); [congruence|simpl; lia]).
  assert (Hlv : len (loader (val_loader t) e) <> 0)
    by (unfold len; destruct (loader (val_loader t) e); [congruence|simpl; lia]).
  unfold epoch_body, epoch_spec, epoch_checkpoint, epoch_report, after_epoch.
  unfold bind at 1. unfold get at 1.
  unfold bind at 1. rewrite train_batches_eq.
  unfold bind at 1. unfold lift at 1. rewrite (truediv_ok _ _ Hlt).
  unfold bind at 1. unfold logger_info at 1, emit at 1.
  unfold bind at 1. rewrite val_batches_eq.
  unfold bind at 1. unfold lift at 1. cbn [val_loader set_model].
  rewrite (truediv_ok _ _ Hlv).
  unfold bind at 1. unfold logger_info at 1, emit at 1.
  unfold bind at 1. unfold log_to_wandb at 1, emit at 1.
  unfold bind at 1. rewrite early_stopping_eq.
  cbn [model set_model patience].
  fold (avg_loss_in e t). fold (avg_val_loss_in e t).
  set (t' := es_update (avg_val_loss_in e t) _).
  destruct (int_ge (early_stopping_counter t') (patience t)) as [[|]|x];
    [reflexivity| |reflexivity].
  unfold save_checkpoint; unfold_monad.
  assert (E : log_dir t' = log_dir t).
  { subst t'.
    match goal with
    | |- log_dir (es_update ?v ?u) = _ =>
        destruct (es_update_fields v u) as (_ & _ & _ & _ & _ & E)
    end.
    exact E. }
  rewrite E.
  destruct (checkpoint_path (log_dir t) (checkpoint_name e)); reflexivity.
Qed.

(** ** The epoch loop *)

Lemma for_epochs_cons (body : Z -> M bool) (e : Z) (l : list Z) (t : Trainer) :
  for_epochs body (e :: l) t =
  match body e t with
  | (Ok true, t1, ev1) => (Ok tt, t1, ev1)
  | (Ok false, t1, ev1) =>
      let '(r, t2, ev2) := for_epochs body l t1 in (r, t2, ev1 ++ ev2)
  | (Raise x, t1, ev1) => (Raise x, t1, ev1)
  end.
Proof.
  cbn [for_epochs]. unfold bind.
  destruct (body e t) as [[[[|]|x] t1] ev1]; try reflexivity.
  unfold ret. now rewrite app_nil_r.
Qed.

Lemma epoch_spec_at (t : Trainer) (p : Z) (d : string) (k : nat) :
  patience t = PInt p -> log_dir t = PStr d ->
  epoch_spec (Z.of_nat k) (trainer_at t k) =
  if triggers t p k
  then (Ok true, trainer_at t (S k), stopped_events t k)
  else (Ok false, trainer_at t (S k), saved_events t d k).
Proof.
  intros Hp Hd. unfold epoch_spec, triggers, stopped_events, saved_events.
  destruct (trainer_at_fields t k) as (_ & _ & _ & -> & ->).
  rewrite Hp, Hd. cbn [int_ge checkpoint_path trainer_at].
  destruct (p <=? _); reflexivity.
Qed.

(** The loop from epoch [k] on, [j] epochs long, under an integer patience
    and a string log directory. *)
Lemma loop_trace (t : Trainer) (p : Z) (d : string) :
  patience t = PInt p -> log_dir t = PStr d ->
  forall (j k : nat),
    (forall i, (k <= i < k + j)%nat ->
       loader (train_loader t) (Z.of_nat i) <> [] /\
       loader (val_loader t) (Z.of_nat i) <> []) ->
    for_epochs epoch_body (map Z.of_nat (seq k j)) (trainer_at t k) =
    match find (triggers t p) (seq k j) with
    | Some s =>
        (Ok tt, trainer_at t (S s),
         flat_map (saved_events t d) (seq k (s - k)) ++ stopped_events t s)
    | None =>
        (Ok tt, trainer_at t (k + j), flat_map (saved_events t d) (seq k j))
    end.
Proof.
  intros Hp Hd. induction j as [|j IH]; intros k Hl.
  - cbn. now rewrite Nat.add_0_r.
  - cbn [seq map find]. rewrite for_epochs_cons.
    destruct (Hl k ltac:(lia)) as [Ht Hv].
    destruct (trainer_at_fields t k) as (Et & Ev & _).
    rewrite epoch_body_spec by (rewrite ?Et, ?Ev; assumption).
    rewrite (epoch_spec_at t p d k Hp Hd).
    destruct (triggers t p k) eqn:Tk.
    + rewrite Nat.sub_diag. reflexivity.
    + rewrite IH by (intros i Hi; apply Hl; lia).
      destruct (find (triggers t p) (seq (S k) j)) as [s|] eqn:F.
      * apply find_some in F. destruct F as [Hin _].
        apply in_seq in Hin.
        replace (s - k)%nat with (S (s - S k)) by lia.
        cbn [seq flat_map]. now rewrite app_assoc.
      * cbn [flat_map]. now replace (k + S j)%nat with (S k + j)%nat by lia.
Qed.

Lemma loaders_nonempty_nat (t : Trainer) (n : Z) :
  loaders_nonempty t n ->
  forall i, (0 <= i < 0 + Z.to_nat n)%nat ->
    loader (train_loader t) (Z.of_nat i) <> [] /\
    loader (val_loader t) (Z.of_nat i) <> [].
Proof. intros Hl i Hi. apply Hl. lia. Qed.

(** The whole run of [train], in closed form. *)
Lemma train_trace (t : Trainer) (n p : Z) (d : string) :
  num_epochs t = PInt n -> patience t = PInt p -> log_dir t = PStr d ->
  loaders_nonempty t n ->
  train t =
  match first_trigger t p n with
  | Some s =>
      (Ok tt, trainer_at t (S s),
       flat_map (saved_events t d) (seq 0 s) ++ stopped_events t s)
  | None =>
      (Ok tt, trainer_at t (Z.to_nat n),
       flat_map (saved_events t d) (seq 0 (Z.to_nat n)))
  end.
Proof.
  intros Hn Hp Hd Hl. unfold train. unfold bind at 1, get at 1.
  rewrite Hn. unfold bind, lift. cbn [epochs_of]. unfold range.
  change t with (trainer_at t 0) at 1.
  rewrite (loop_trace t p d Hp Hd (Z.to_nat n) 0 (loaders_nonempty_nat t n Hl)).
  unfold first_trigger.
  destruct (find (triggers t p) (seq 0 (Z.to_nat n))) as [s|].
  - now rewrite Nat.sub_0_r.
  - reflexivity.
Qed.

(** ** Reading the closed form *)

Lemma started_saved (t : Trainer) (d : string) (j k : nat) :
  started_epochs (flat_map (saved_events t d) (seq k j)) = map Z.of_nat (seq k j).
Proof.
  revert k. induction j as [|j IH]; intros k; [reflexivity|].
  cbn [seq flat_map map]. unfold started_epochs in *.
  rewrite flat_map_app, IH. reflexivity.
Qed.

Lemma early_stop_saved (t : Trainer) (d : string) (j k : nat) :
  early_stop_epochs (flat_map (saved_events t d) (seq k j)) = [].
Proof.
  revert k. induction j as [|j IH]; intros k; [reflexivity|].
  cbn [seq flat_map]. unfold early_stop_epochs in *.
  rewrite flat_map_app, IH. reflexivity.
Qed.

Lemma saved_files_saved (t : Trainer) (d : string) (j k : nat) :
  saved_files (flat_map (saved_events t d) (seq k j)) =
  map (fun i => (os_path_join d (checkpoint_name (Z.of_nat i)),
                 epoch_checkpoint (Z.of_nat i) (trainer_at t i))) (seq k j).
Proof.
  revert k. induction j as [|j IH]; intros k; [reflexivity|].
  cbn [seq flat_map map]. unfold saved_files in *.
  rewrite flat_map_app, IH. reflexivity.
Qed.

Lemma checkpoint_epochs_saved (t : Trainer) (d : string) (j k : nat) :
  checkpoint_epochs (flat_map (saved_events t d) (seq k j)) = map Z.of_nat (seq k j).
Proof.
  unfold checkpoint_epochs. rewrite saved_files_saved.
  revert k. induction j as [|j IH]; intros k; [reflexivity|].
  cbn [seq map flat_map]. rewrite IH. reflexivity.
Qed.

Lemma wandb_logs_saved (t : Trainer) (d : string) (j k : nat) :
  wandb_logs (flat_map (saved_events t d) (seq k j)) =
  map (epoch_record t) (seq k j).
Proof.
  revert k. induction j as [|j IH]; intros k; [reflexivity|].
  cbn [seq flat_map map]. unfold wandb_logs in *.
  rewrite flat_map_app, IH. reflexivity.
Qed.

Lemma started_app (a b : list event) :
  started_epochs (a ++ b) = started_epochs a ++ started_epochs b.
Proof. apply flat_map_app. Qed.

Lemma early_stop_app (a b : list event) :
  early_stop_epochs (a ++ b) = early_stop_epochs a ++ early_stop_epochs b.
Proof. apply flat_map_app. Qed.

Lemma wandb_logs_app (a b : list event) :
  wandb_logs (a ++ b) = wandb_logs a ++ wandb_logs b.
Proof. apply flat_map_app. Qed.

Lemma saved_files_app (a b : list event) :
  saved_files (a ++ b) = saved_files a ++ saved_files b.
Proof. apply flat_map_app. Qed.

Lemma checkpoint_epochs_app (a b : list event) :
  checkpoint_epochs (a ++ b) = checkpoint_epochs a ++ checkpoint_epochs b.
Proof. unfold checkpoint_epochs. rewrite saved_files_app. apply flat_map_app. Qed.

Lemma range_succ (k : nat) : range (Z.of_nat k + 1) = range (Z.of_nat k) ++ [Z.of_nat k].
Proof.
  unfold range. replace (Z.to_nat (Z.of_nat k + 1)) with (S k) by lia.
  rewrite Nat2Z.id, seq_S, map_app. reflexivity.
Qed.

Lemma range_sorted (n : Z) : StronglySorted Z.lt (range n).
Proof.
  unfold range. generalize (Z.to_nat n) as j. generalize 0%nat as k.
  intros k j. revert k. induction j as [|j IH]; intros k; cbn [seq map].
  - constructor.
  - constructor; [apply IH|].
    apply Forall_forall. intros x Hx. apply in_map_iff in Hx.
    destruct Hx as (i & <- & Hi). apply in_seq in Hi. lia.
Qed.

(** ** The order of floats *)

Ltac float_order :=
  unfold float_lt, float_le, SFltb, SFleb, is_nan;
  repeat match goal with
  | a : float |- _ => destruct a as [[|]|[|]| |[|] ? ?]
  end;
  cbn [SFcompare CompOpp];
  try discriminate; try reflexivity;
  repeat match goal with
  | |- context [Pos.compare_cont Eq ?x ?y] =>
      change (Pos.compare_cont Eq x y) with (Pos.compare x y)
  end;
  repeat match goal with
  | |- context [Z.compare ?x ?y] => destruct (Z.compare_spec x y)
  | |- context [Pos.compare ?x ?y] => destruct (Pos.compare_spec x y)
  end;
  cbn [CompOpp]; try discriminate; try reflexivity; try lia.

Lemma float_lt_not_nan (a b : float) : float_lt a b = true -> is_nan a = false.
Proof. float_order. Qed.

Lemma float_le_refl (a : float) : is_nan a = false -> float_le a a = true.
Proof. float_order. Qed.

Lemma float_lt_le_trans (a b c : float) :
  float_lt a b = true -> float_le b c = true -> float_le a c = true.
Proof. float_order. Qed.

Lemma float_not_lt_le (a b : float) :
  is_nan a = false -> is_nan b = false ->
  float_lt a b = false -> float_le b a = true.
Proof. float_order. Qed.

(** ** early_stopping *)

(** C1: every call to [early_stopping] with a validation loss strictly
    below [best_val_loss] sets the counter to zero and [best_val_loss] to
    that loss; every other call increments the counter by exactly one and
    leaves [best_val_loss] as it is. *)
Theorem early_stopping_counter_update (t : Trainer) (v : float) :
  let t' := state_of (early_stopping v t) in
  (float_lt v (best_val_loss t) = true ->
     early_stopping_counter t' = 0 /\ best_val_loss t' = v) /\
  (float_lt v (best_val_loss t) = false ->
     early_stopping_counter t' = early_stopping_counter t + 1 /\
     best_val_loss t' = best_val_loss t).
Proof.
  cbv zeta. rewrite early_stopping_eq. unfold state_of, es_update. cbn [fst snd].
  split; intros ->; split; reflexivity.
Qed.

Lemma early_stopping_state (v : float) (t : Trainer) :
  state_of (early_stopping v t) = es_update v t.
Proof. now rewrite early_stopping_eq. Qed.

Lemma best_after_update (v : float) (t : Trainer) :
  best_val_loss (es_update v t) =
  if float_lt v (best_val_loss t) then v else best_val_loss t.
Proof. unfold es_update. destruct (float_lt v (best_val_loss t)); reflexivity. Qed.

Lemma is_minimum_step (b v : float) (l : list float) :
  is_minimum b l ->
  is_minimum (if float_lt v b then v else b) (l ++ [v]).
Proof.
  intros (Hin & Hnan & Hall). destruct (float_lt v b) eqn:E.
  - split; [apply in_or_app; right; now left|].
    split; [now apply float_lt_not_nan with b|].
    apply Forall_app. split.
    + apply Forall_forall. intros x Hx Nx.
      apply float_lt_le_trans with b; [exact E|].
      revert Hall. rewrite Forall_forall. intros Hall. now apply Hall.
    + constructor; [|constructor]. intros Nv. now apply float_le_refl.
  - split; [apply in_or_app; now left|].
    split; [exact Hnan|].
    apply Forall_app. split; [exact Hall|].
    constructor; [|constructor]. intros Nv. now apply float_not_lt_le.
Qed.

Lemma calls_minimum (losses : list float) :
  forall (t : Trainer) (l : list float),
    is_minimum (best_val_loss t) l ->
    is_minimum (best_val_loss (early_stopping_calls losses t)) (l ++ losses).
Proof.
  induction losses as [|v losses IH]; intros t l Hm.
  - now rewrite app_nil_r.
  - cbn [early_stopping_calls fold_left].
    fold (early_stopping_calls losses (state_of (early_stopping v t))).
    replace (l ++ v :: losses) with ((l ++ [v]) ++ losses)
      by now rewrite <- app_assoc.
    apply IH. rewrite early_stopping_state, best_after_update.
    now apply is_minimum_step.
Qed.

Lemma Trainer_init_fresh (m : net) (tl vl : SemanticSegmentationDataset)
    (args : list pyval) (pe : pyval -> bool) (t : Trainer) (ev : list event) :
  Trainer_init m tl vl args pe = (Ok t, ev) ->
  t = {| model := m; train_loader := tl; val_loader := vl;
         num_epochs := nth 0 args (PInt 10);
         patience := nth 1 args (PInt 5);
         log_dir := nth 2 args (PStr "logs");
         early_stopping_counter := 0; best_val_loss := float_inf |}.
Proof.
  unfold Trainer_init. destruct (3 <? List.length args)%nat; [discriminate|].
  cbn [log_dir]. destruct (pe _); [congruence|].
  destruct (os_makedirs _) as [[[]|x] ev']; congruence.
Qed.

(** C4: after any sequence of [early_stopping] calls on a trainer fresh
    from [__init__], [best_val_loss] is a minimum of positive infinity and
    the losses seen so far, and one more call leaves it unchanged or makes
    it strictly lower. *)
Theorem best_val_loss_running_minimum (m : net)
    (tl vl : SemanticSegmentationDataset) (args : list pyval)
    (pe : pyval -> bool) (t : Trainer) (ev : list event)
    (losses : list float) (v : float) :
  Trainer_init m tl vl args pe = (Ok t, ev) ->
  let before := early_stopping_calls losses t in
  let after := state_of (early_stopping v before) in
  is_minimum (best_val_loss before) (float_inf :: losses) /\
  (best_val_loss after = best_val_loss before \/
   float_lt (best_val_loss after) (best_val_loss before) = true).
Proof.
  intros Hinit. apply Trainer_init_fresh in Hinit. cbv zeta. split.
  - change (float_inf :: losses) with ([float_inf] ++ losses).
    apply calls_minimum. subst t. cbn [best_val_loss].
    split; [now left|]. split; [reflexivity|].
    constructor; [|constructor]. reflexivity.
  - rewrite early_stopping_state, best_after_update.
    destruct (float_lt v _) eqn:E; [now right|now left].
Qed.

(** ** save_checkpoint *)

Lemma has_sep_append (a b : string) :
  has_sep (a ++ b) = has_sep a || has_sep b.
Proof.
  induction a as [|c a IH]; cbn [append has_sep]; [reflexivity|].
  now rewrite IH, orb_assoc.
Qed.

Lemma endswith_has_sep (a : string) : endswith_sep a = true -> has_sep a = true.
Proof.
  induction a as [|c a IH]; cbn [endswith_sep has_sep]; [discriminate|].
  destruct a as [|c' a'].
  - intros ->. reflexivity.
  - intros E. rewrite (IH E). apply orb_true_r.
Qed.

Lemma endswith_length (a : string) :
  endswith_sep a = true -> (String.length a =? 0)%nat = false.
Proof. destruct a; [discriminate|reflexivity]. Qed.

Lemma endswith_append_sep (a : string) : endswith_sep (a ++ "/") = true.
Proof.
  induction a as [|c a IH]; [reflexivity|].
  cbn [append endswith_sep]. destruct (a ++ "/")%string eqn:E; [|exact IH].
  destruct a; discriminate.
Qed.

Lemma append_assoc (a b c : string) : ((a ++ b) ++ c = a ++ b ++ c)%string.
Proof. induction a as [|x a IH]; cbn [append]; [reflexivity|now rewrite IH]. Qed.

Lemma basename_no_sep (s : string) : has_sep s = false -> basename s = s.
Proof.
  destruct s as [|c r]; [reflexivity|]. cbn [has_sep basename].
  intros E. apply orb_false_elim in E. destruct E as [-> ->]. reflexivity.
Qed.

Lemma basename_after_sep (a name : string) :
  has_sep name = false -> endswith_sep a = true -> basename (a ++ name) = name.
Proof.
  intros Hn. induction a as [|c a IH]; [discriminate|].
  cbn [endswith_sep append basename]. destruct a as [|c' a'].
  - intros ->. cbn [append]. now rewrite Hn.
  - intros E. rewrite has_sep_append, (endswith_has_sep _ E). cbn [orb].
    now apply IH.
Qed.

Lemma uint_no_sep (d : Decimal.uint) : has_sep (NilEmpty.string_of_uint d) = false.
Proof. induction d; cbn [NilEmpty.string_of_uint has_sep]; try assumption; reflexivity. Qed.

Lemma str_of_int_no_sep (z : Z) : has_sep (str_of_int z) = false.
Proof.
  unfold str_of_int, NilZero.string_of_int, NilZero.string_of_uint.
  destruct (Z.to_int z) as [d|d]; cbn [has_sep];
    (destruct d; [reflexivity|apply uint_no_sep ..]).
Qed.

Lemma checkpoint_name_no_sep (epoch : Z) : has_sep (checkpoint_name epoch) = false.
Proof.
  unfold checkpoint_name. rewrite !has_sep_append, str_of_int_no_sep. reflexivity.
Qed.

Lemma checkpoint_join (d : string) (epoch : Z) :
  let path := os_path_join d (checkpoint_name epoch) in
  (path = (d ++ "/" ++ checkpoint_name epoch)%string \/
   (d = "" \/ endswith_sep d = true) /\
   path = (d ++ checkpoint_name epoch)%string) /\
  basename path = checkpoint_name epoch.
Proof.
  cbv zeta. unfold os_path_join.
  change (startswith_sep (checkpoint_name epoch)) with false. cbv iota.
  pose proof (checkpoint_name_no_sep epoch) as Hn.
  destruct d as [|c d].
  - cbn [String.length Nat.eqb orb append]. split; [right; auto|].
    now apply basename_no_sep.
  - cbn [String.length Nat.eqb orb].
    destruct (endswith_sep (String c d)) eqn:E.
    + split; [right; auto|]. now apply basename_after_sep.
    + split; [now left|]. rewrite <- append_assoc.
      apply basename_after_sep; [exact Hn|apply endswith_append_sep].
Qed.

(** C5: the record [save_checkpoint] hands to [torch.save] has exactly the
    five fields [epoch], [model_state_dict], [optimizer_state_dict],
    [train_loss] and [val_loss], holding its arguments, and the file it is
    written to is [checkpoint_epoch_<epoch>.pt] in the log directory of the
    trainer. *)
Theorem save_checkpoint_record (t : Trainer) (d : string) (epoch : Z)
    (model_state optimizer_state : state_dict) (train_loss val_loss : float) :
  log_dir t = PStr d ->
  exists (checkpoint : dict) (path : string),
    save_checkpoint epoch model_state optimizer_state train_loss val_loss t =
      (Ok tt, t, [TorchSave checkpoint path; LoggerInfo (CheckpointSaved epoch)]) /\
    checkpoint =
      [ ("epoch", OInt epoch);
        ("model_state_dict", OState model_state);
        ("optimizer_state_dict", OState optimizer_state);
        ("train_loss", OFloat train_loss);
        ("val_loss", OFloat val_loss) ] /\
    keys checkpoint =
      [ "epoch"; "model_state_dict"; "optimizer_state_dict";
        "train_loss"; "val_loss" ] /\
    path = os_path_join d (checkpoint_name epoch) /\
    (path = (d ++ "/" ++ checkpoint_name epoch)%string \/
     (d = "" \/ endswith_sep d = true) /\
     path = (d ++ checkpoint_name epoch)%string) /\
    basename path = ("checkpoint_epoch_" ++ str_of_int epoch ++ ".pt")%string.
Proof.
  intros Hd. eexists. eexists. split.
  - unfold save_checkpoint; unfold_monad. rewrite Hd. cbn [checkpoint_path].
    reflexivity.
  - split; [reflexivity|]. split; [reflexivity|]. split; [reflexivity|].
    apply checkpoint_join.
Qed.

(** ** The first epoch *)

Lemma train_unroll (t : Trainer) (n : Z) :
  num_epochs t = PInt n -> 0 < n ->
  exists rest, train t = for_epochs epoch_body (0 :: rest) t.
Proof.
  intros Hn Hpos. exists (map Z.of_nat (seq 1 (Z.to_nat n - 1))).
  unfold train. unfold bind at 1, get at 1. rewrite Hn.
  unfold bind, lift. cbn [epochs_of]. unfold range.
  replace (Z.to_nat n) with (S (Z.to_nat n - 1)) at 1 by lia.
  cbn [seq map Z.of_nat].
  destruct (for_epochs _ _ t) as [[r t'] ev]. reflexivity.
Qed.

Lemma train_first_epoch (t : Trainer) (n : Z) :
  num_epochs t = PInt n -> 0 < n ->
  loader (train_loader t) 0 <> [] -> loader (val_loader t) 0 <> [] ->
  exists rest,
    train t =
    match epoch_spec 0 t with
    | (Ok true, t1, ev1) => (Ok tt, t1, ev1)
    | (Ok false, t1, ev1) =>
        let '(r, t2, ev2) := for_epochs epoch_body rest t1 in (r, t2, ev1 ++ ev2)
    | (Raise x, t1, ev1) => (Raise x, t1, ev1)
    end.
Proof.
  intros Hn Hpos Ht Hv. destruct (train_unroll t n Hn Hpos) as [rest ->].
  exists rest. rewrite for_epochs_cons. now rewrite epoch_body_spec.
Qed.

(** C10: under a patience of zero [early_stopping] answers [True] on every
    call, whether or not the loss improves, and [train] leaves the loop in
    its first epoch: one epoch is reported and logged, none is saved.  The
    counter is never negative: [__init__] sets it to zero and no call
    makes it so. *)
Theorem zero_patience_stops_at_once (t : Trainer) (v : float) :
  patience t = PInt 0 -> 0 <= early_stopping_counter t ->
  result_of (early_stopping v t) = Ok true /\
  0 <= early_stopping_counter (state_of (early_stopping v t)) /\
  (forall n,
     num_epochs t = PInt n -> 0 < n ->
     loader (train_loader t) 0 <> [] -> loader (val_loader t) 0 <> [] ->
     result_of (train t) = Ok tt /\
     events_of (train t) = stopped_events t 0 /\
     started_epochs (events_of (train t)) = [0] /\
     early_stop_epochs (events_of (train t)) = [0] /\
     saved_files (events_of (train t)) = []).
Proof.
  intros Hp Hc.
  assert (Hup : forall u w, patience u = PInt 0 -> 0 <= early_stopping_counter u ->
            0 <= early_stopping_counter (es_update w u)).
  { intros u w _ Hu. unfold es_update.
    destruct (float_lt w (best_val_loss u)); cbn; lia. }
  split; [|split].
  - rewrite early_stopping_eq. unfold result_of. cbn [fst]. rewrite Hp.
    cbn [int_ge]. f_equal. apply Z.leb_le. now apply Hup.
  - rewrite early_stopping_state. now apply Hup.
  - intros n Hn Hpos Ht Hv.
    destruct (train_first_epoch t n Hn Hpos Ht Hv) as [rest ->].
    unfold epoch_spec. rewrite Hp. cbn [int_ge].
    assert (E : (0 <=? early_stopping_counter (after_epoch 0 t)) = true).
    { apply Z.leb_le. unfold after_epoch. apply Hup; [exact Hp|exact Hc]. }
    rewrite E. unfold result_of, events_of, stopped_events. cbn [fst snd trainer_at].
    repeat split; reflexivity.
Qed.

(** C9: the constructor call of [run] binds the log directory of the
    pipeline to [patience] and leaves [log_dir] at its default ['logs'];
    for the pipeline of the script both are the string ['logs'].  Every
    [early_stopping] call on that trainer raises [TypeError], and so does
    the first epoch of its [train], after the epoch was logged and before
    anything is saved. *)
Theorem run_passes_log_dir_as_patience (self : Pipeline) (pe : pyval -> bool) :
  (forall m : net, exists t ev,
     run_trainer self m pe = (Ok t, ev) /\
     num_epochs t = PInt (pipeline_num_epochs self) /\
     patience t = PStr (pipeline_log_dir self) /\
     log_dir t = PStr "logs" /\
     (forall v u, patience u = patience t ->
        result_of (early_stopping v u) = Raise TypeError) /\
     (0 < pipeline_num_epochs self ->
      loader (run_train_dataset self) 0 <> [] ->
      loader (run_val_dataset self) 0 <> [] ->
      result_of (train t) = Raise TypeError /\
      events_of (train t) = epoch_report 0 t)) /\
  (self = Pipeline_default ->
   forall m : net, exists t ev,
     run_trainer self m pe = (Ok t, ev) /\
     patience t = PStr "logs" /\ log_dir t = PStr "logs") /\
  (forall m : net,
     UNet_new = Ok m ->
     0 < pipeline_num_epochs self ->
     loader (run_train_dataset self) 0 <> [] ->
     loader (run_val_dataset self) 0 <> [] ->
     fst (run self pe) = Raise TypeError).
Proof.
  assert (Hbuild : forall m : net, exists t ev,
            run_trainer self m pe = (Ok t, ev) /\
            t = {| model := m; train_loader := run_train_dataset self;
                   val_loader := run_val_dataset self;
                   num_epochs := PInt (pipeline_num_epochs self);
                   patience := PStr (pipeline_log_dir self);
                   log_dir := PStr "logs";
                   early_stopping_counter := 0;
                   best_val_loss := float_inf |}).
  { intros m. unfold run_trainer, Trainer_init.
    cbn [List.length Nat.ltb Nat.leb nth log_dir os_makedirs].
    destruct (pe (PStr "logs")); do 2 eexists; split; reflexivity. }
  assert (Htrain : forall t,
            num_epochs t = PInt (pipeline_num_epochs self) ->
            patience t = PStr (pipeline_log_dir self) ->
            train_loader t = run_train_dataset self ->
            val_loader t = run_val_dataset self ->
            0 < pipeline_num_epochs self ->
            loader (run_train_dataset self) 0 <> [] ->
            loader (run_val_dataset self) 0 <> [] ->
            train t = (Raise TypeError, after_epoch 0 t, epoch_report 0 t)).
  { intros t Hn Hp Etl Evl Hpos Ht Hv.
    destruct (train_first_epoch t _ Hn Hpos) as [rest ->];
      [now rewrite Etl|now rewrite Evl|].
    unfold epoch_spec. rewrite Hp. reflexivity. }
  split.
  - intros m. destruct (Hbuild m) as (t & ev & Hrun & Ht).
    exists t, ev. split; [exact Hrun|]. subst t. cbn [num_epochs patience log_dir].
    repeat split; try reflexivity.
    + intros v u Hu. rewrite early_stopping_eq. unfold result_of. cbn [fst].
      rewrite Hu. reflexivity.
    + rewrite Htrain; auto.
    + rewrite Htrain; auto.
  - split.
    { intros -> m. destruct (Hbuild m) as (t & ev & Hrun & Ht).
      exists t, ev. subst t. now repeat split. }
    intros m Hm Hpos Ht Hv. unfold run. rewrite Hm.
    destruct (Hbuild m) as (t & ev & Hrun & Et). unfold and_then. rewrite Hrun.
    rewrite (Htrain t); subst t; auto.
Qed.

(** ** train and early stopping *)

Lemma find_seq_spec (f : nat -> bool) (j : nat) :
  forall a k,
    find f (seq a j) = Some k <->
    (a <= k < a + j)%nat /\ f k = true /\
    (forall i, (a <= i < k)%nat -> f i = false).
Proof.
  induction j as [|j IH]; intros a k; cbn [seq find].
  - split; [discriminate|]. intros ((Hk1 & Hk2) & _). lia.
  - destruct (f a) eqn:Fa.
    + split.
      * intros [= <-]. split; [lia|]. split; [exact Fa|]. intros i Hi. lia.
      * intros (Hk & Fk & Hmin). f_equal.
        destruct (Nat.eq_dec a k) as [E|E]; [exact E|].
        rewrite (Hmin a) in Fa by lia. discriminate.
    + rewrite IH. split.
      * intros (Hk & Fk & Hmin). split; [lia|]. split; [exact Fk|].
        intros i Hi. destruct (Nat.eq_dec i a) as [->|E]; [exact Fa|].
        apply Hmin. lia.
      * intros (Hk & Fk & Hmin).
        assert (a <> k) by (intros ->; congruence).
        split; [lia|]. split; [exact Fk|]. intros i Hi. apply Hmin. lia.
Qed.

Lemma first_trigger_spec (t : Trainer) (p n : Z) (k : nat) :
  first_trigger t p n = Some k <->
  Z.of_nat k < n /\ triggers t p k = true /\
  (forall i, (i < k)%nat -> triggers t p i = false).
Proof.
  unfold first_trigger. rewrite find_seq_spec. split.
  - intros (Hk & Fk & Hmin). split; [lia|]. split; [exact Fk|].
    intros i Hi. apply Hmin. lia.
  - intros (Hk & Fk & Hmin). split; [lia|]. split; [exact Fk|].
    intros i Hi. apply Hmin. lia.
Qed.

Lemma counter_after_epoch (t : Trainer) (k : nat) :
  early_stopping_counter (trainer_at t (S k)) =
  if improves t k then 0 else early_stopping_counter (trainer_at t k) + 1.
Proof.
  cbn [trainer_at]. unfold improves, after_epoch, es_update.
  cbn [best_val_loss set_model early_stopping_counter].
  destruct (float_lt _ _); reflexivity.
Qed.

(** On a counter that starts at zero: at the start of epoch [k] it counts
    the epochs just before [k] that did not improve, back to the last one
    that did. *)
Lemma counter_counts_stale_epochs (t : Trainer) :
  early_stopping_counter t = 0 ->
  forall k : nat,
    let c := early_stopping_counter (trainer_at t k) in
    0 <= c <= Z.of_nat k /\
    (forall j : nat, Z.of_nat k - c <= Z.of_nat j < Z.of_nat k ->
       improves t j = false) /\
    (forall j : nat, Z.of_nat j = Z.of_nat k - c - 1 -> improves t j = true).
Proof.
  intros H0. induction k as [|k IH]; cbv zeta.
  - cbn [trainer_at]. rewrite H0. split; [lia|]. split; intros j Hj; lia.
  - rewrite counter_after_epoch. cbv zeta in IH.
    destruct IH as (Hc & Hstale & Hlast).
    destruct (improves t k) eqn:Ik.
    + split; [lia|]. split; intros j Hj; [lia|].
      replace j with k by lia. exact Ik.
    + split; [lia|]. split; intros j Hj.
      * destruct (Nat.eq_dec j k) as [->|E]; [exact Ik|]. apply Hstale. lia.
      * apply Hlast. lia.
Qed.

Lemma in_range (n e : Z) : In e (range n) <-> 0 <= e < n.
Proof.
  unfold range. rewrite in_map_iff. split.
  - intros (i & <- & Hi). apply in_seq in Hi. lia.
  - intros He. exists (Z.to_nat e). split; [lia|]. apply in_seq. lia.
Qed.

Lemma range_NoDup (n : Z) : NoDup (range n).
Proof.
  unfold range. apply Injective_map_NoDup; [|apply seq_NoDup].
  intros a b. apply Nat2Z.inj.
Qed.

Lemma range_of_nat (k : nat) : range (Z.of_nat k) = map Z.of_nat (seq 0 k).
Proof. unfold range. now rewrite Nat2Z.id. Qed.

(** What a run under an integer patience and a string log directory leaves
    in its trace. *)
Lemma train_observed (t : Trainer) (n p : Z) (d : string) :
  num_epochs t = PInt n -> patience t = PInt p -> log_dir t = PStr d ->
  loaders_nonempty t n ->
  let evs := events_of (train t) in
  result_of (train t) = Ok tt /\
  state_of (train t) =
    trainer_at t
      (match first_trigger t p n with Some k => S k | None => Z.to_nat n end) /\
  early_stop_epochs evs =
    match first_trigger t p n with Some k => [Z.of_nat k] | None => [] end /\
  started_epochs evs =
    range (match first_trigger t p n with Some k => Z.of_nat k + 1 | None => n end) /\
  saved_files evs =
    map (fun i => (os_path_join d (checkpoint_name (Z.of_nat i)),
                   epoch_checkpoint (Z.of_nat i) (trainer_at t i)))
      (seq 0 (match first_trigger t p n with Some k => k | None => Z.to_nat n end)) /\
  checkpoint_epochs evs =
    range (match first_trigger t p n with Some k => Z.of_nat k | None => n end).
Proof.
  intros Hn Hp Hd Hl. cbv zeta.
  rewrite (train_trace t n p d Hn Hp Hd Hl).
  destruct (first_trigger t p n) as [s|];
    unfold result_of, state_of, events_of; cbn [fst snd].
  - split; [reflexivity|]. split; [reflexivity|].
    rewrite early_stop_app, started_app, saved_files_app, checkpoint_epochs_app.
    rewrite early_stop_saved, started_saved, saved_files_saved.
    rewrite checkpoint_epochs_saved.
    split; [reflexivity|].
    split; [now rewrite range_succ, range_of_nat|].
    split; [now rewrite app_nil_r|].
    rewrite range_of_nat. now rewrite app_nil_r.
  - split; [reflexivity|]. split; [reflexivity|].
    rewrite early_stop_saved, started_saved.
    rewrite saved_files_saved, checkpoint_epochs_saved. now repeat split.
Qed.

(** C2: under an integer patience [train] ends without an exception; it
    leaves the loop by [break] at epoch [k] exactly when [k] is the first
    epoch below [num_epochs] whose [early_stopping] call brings the counter
    to the patience, and then epochs [0..k] are the ones run; with no such
    epoch all [num_epochs] epochs run.  [trainer_at] is the state the code
    is in at the start of each epoch.  On a counter that starts at zero the
    call of epoch [k] does so exactly when the last [patience] epochs up to
    [k] all failed to improve the validation loss. *)
Theorem train_halts_at_first_trigger (t : Trainer) (n p : Z) (d : string) :
  num_epochs t = PInt n -> patience t = PInt p -> log_dir t = PStr d ->
  loaders_nonempty t n ->
  let evs := events_of (train t) in
  result_of (train t) = Ok tt /\
  state_of (train t) =
    trainer_at t
      (match first_trigger t p n with Some k => S k | None => Z.to_nat n end) /\
  early_stop_epochs evs =
    match first_trigger t p n with Some k => [Z.of_nat k] | None => [] end /\
  started_epochs evs =
    range (match first_trigger t p n with Some k => Z.of_nat k + 1 | None => n end) /\
  (forall k : nat,
     In (Z.of_nat k) (early_stop_epochs evs) <->
     Z.of_nat k < n /\ triggers t p k = true /\
     (forall i, (i < k)%nat -> triggers t p i = false)) /\
  (early_stopping_counter t = 0 ->
   forall k : nat,
     triggers t p k = true <->
     p <= Z.of_nat k + 1 /\
     (forall j : nat, Z.of_nat k + 1 - p <= Z.of_nat j <= Z.of_nat k ->
        improves t j = false)).
Proof.
  intros Hn Hp Hd Hl. cbv zeta.
  destruct (train_observed t n p d Hn Hp Hd Hl) as (Hr & Hst & Hstop & Hstart & _).
  cbv zeta in Hstop, Hstart.
  split; [exact Hr|]. split; [exact Hst|].
  split; [exact Hstop|]. split; [exact Hstart|]. split.
  - intros k. rewrite Hstop, <- first_trigger_spec.
    destruct (first_trigger t p n) as [s|]; cbn [In]; split.
    + intros [E|[]]. f_equal. lia.
    + intros [= ->]. now left.
    + intros [].
    + discriminate.
  - intros H0 k. unfold triggers. rewrite Z.leb_le.
    destruct (counter_counts_stale_epochs t H0 (S k)) as (Hc & Hstale & Hlast).
    cbv zeta in *. set (c := early_stopping_counter (trainer_at t (S k))) in *.
    split.
    + intros Hpc. split; [lia|]. intros j Hj. apply Hstale. lia.
    + intros (Hpk & Hall).
      destruct (Z_le_gt_dec p c) as [Hle|Hgt]; [exact Hle|].
      assert (Hj : Z.of_nat (Z.to_nat (Z.of_nat (S k) - c - 1)) =
                   Z.of_nat (S k) - c - 1) by lia.
      pose proof (Hlast _ Hj) as Himp.
      rewrite Hall in Himp by lia. discriminate.
Qed.

(** C3: in a run of [train] every epoch that ran and did not end in
    [break] has exactly one checkpoint, the epoch that ended in [break] has
    none, nothing else is saved, each checkpoint goes to the file named
    after its epoch, and the epochs of the checkpoints, in the order they
    were written, are strictly increasing. *)
Theorem checkpoints_once_per_saved_epoch (t : Trainer) (n p : Z) (d : string) :
  num_epochs t = PInt n -> patience t = PInt p -> log_dir t = PStr d ->
  loaders_nonempty t n ->
  let evs := events_of (train t) in
  (forall e, In e (started_epochs evs) -> ~ In e (early_stop_epochs evs) ->
     count_occ Z.eq_dec (checkpoint_epochs evs) e = 1%nat) /\
  (forall e, In e (early_stop_epochs evs) ->
     count_occ Z.eq_dec (checkpoint_epochs evs) e = 0%nat) /\
  (forall e, In e (checkpoint_epochs evs) -> In e (started_epochs evs)) /\
  map fst (saved_files evs) =
    map (fun e => os_path_join d (checkpoint_name e)) (checkpoint_epochs evs) /\
  List.length (saved_files evs) = List.length (checkpoint_epochs evs) /\
  StronglySorted Z.lt (checkpoint_epochs evs).
Proof.
  intros Hn Hp Hd Hl. cbv zeta.
  destruct (train_observed t n p d Hn Hp Hd Hl)
    as (_ & _ & Hstop & Hstart & Hfiles & Hck).
  cbv zeta in Hstop, Hstart, Hfiles, Hck.
  rewrite Hstop, Hstart, Hfiles, Hck.
  split; [|split; [|split; [|split; [|split]]]].
  - intros e Hs Hns.
    apply (proj1 (NoDup_count_occ' Z.eq_dec _) (range_NoDup _)).
    apply in_range. apply in_range in Hs.
    destruct (first_trigger t p n) as [s|]; [|exact Hs].
    assert (e <> Z.of_nat s) by (intros ->; apply Hns; now left). lia.
  - intros e He. apply count_occ_not_In. rewrite in_range.
    destruct (first_trigger t p n) as [s|]; [|destruct He].
    destruct He as [<-|[]]. lia.
  - intros e. rewrite !in_range. destruct (first_trigger t p n); lia.
  - rewrite map_map. cbn [fst].
    destruct (first_trigger t p n) as [s|].
    + now rewrite range_of_nat, map_map.
    + unfold range. now rewrite map_map.
  - rewrite length_map. unfold range. rewrite length_map, !length_seq.
    destruct (first_trigger t p n); lia.
  - apply range_sorted.
Qed.

(** ** train and wandb *)

Lemma loop_logs (t : Trainer) :
  forall (j k : nat),
    (forall i, (k <= i < k + j)%nat ->
       loader (train_loader t) (Z.of_nat i) <> [] /\
       loader (val_loader t) (Z.of_nat i) <> []) ->
    let evs :=
      events_of (for_epochs epoch_body (map Z.of_nat (seq k j)) (trainer_at t k)) in
    exists m : nat,
      (m <= j)%nat /\
      started_epochs evs = map Z.of_nat (seq k m) /\
      wandb_logs evs = map (epoch_record t) (seq k m) /\
      incl (early_stop_epochs evs) (started_epochs evs).
Proof.
  induction j as [|j IH]; intros k Hl; cbv zeta.
  - exists 0%nat. cbn. repeat split; [lia|apply incl_refl].
  - cbn [seq map]. rewrite for_epochs_cons.
    destruct (Hl k ltac:(lia)) as [Ht Hv].
    destruct (trainer_at_fields t k) as (Et & Ev & _).
    rewrite epoch_body_spec by (rewrite ?Et, ?Ev; assumption).
    assert (Hone : forall tail,
              started_epochs tail = [] -> wandb_logs tail = [] ->
              incl (early_stop_epochs tail) [Z.of_nat k] ->
              exists m : nat,
                (m <= S j)%nat /\
                started_epochs (epoch_report (Z.of_nat k) (trainer_at t k) ++ tail) =
                  map Z.of_nat (seq k m) /\
                wandb_logs (epoch_report (Z.of_nat k) (trainer_at t k) ++ tail) =
                  map (epoch_record t) (seq k m) /\
                incl (early_stop_epochs
                        (epoch_report (Z.of_nat k) (trainer_at t k) ++ tail))
                     (started_epochs
                        (epoch_report (Z.of_nat k) (trainer_at t k) ++ tail))).
    { intros tail Hs Hw Hi. exists 1%nat.
      unfold started_epochs, wandb_logs, early_stop_epochs in *.
      rewrite !flat_map_app, Hs, Hw. cbn. repeat split; [lia|exact Hi]. }
    unfold epoch_spec.
    destruct (int_ge _ _) as [[|]|x]; unfold events_of; cbn [snd].
    + apply Hone; try reflexivity. cbn. apply incl_refl.
    + destruct (checkpoint_path _ _) as [path|x].
      * specialize (IH (S k) ltac:(intros i Hi; apply Hl; lia)).
        cbv zeta in IH. cbn [trainer_at] in IH.
        destruct (for_epochs epoch_body (map Z.of_nat (seq (S k) j))
                    (after_epoch (Z.of_nat k) (trainer_at t k)))
          as [[r t'] evs].
        unfold events_of in IH. cbn [snd] in *.
        destruct IH as (m & Hm & Hs & Hw & Hi).
        exists (S m). split; [lia|].
        rewrite started_app, wandb_logs_app, early_stop_app, Hs, Hw.
        cbn [seq map]. split; [reflexivity|]. split; [reflexivity|].
        change (incl (early_stop_epochs evs)
                  (Z.of_nat k :: map Z.of_nat (seq (S k) m))).
        apply incl_tl. now rewrite <- Hs.
      * rewrite <- (app_nil_r (epoch_report _ _)).
        apply Hone; try reflexivity. cbn. apply incl_nil_l.
    + rewrite <- (app_nil_r (epoch_report _ _)).
      apply Hone; try reflexivity. cbn. apply incl_nil_l.
Qed.

(** C6: the epochs of a run of [train] are [0..m-1] for some [m] at most
    [num_epochs]; wandb receives exactly one record for each of them, in
    order, with exactly the keys [epoch], [train_loss] and [val_loss]
    holding the index of the epoch and its two average losses; an epoch that
    ends in [break] is one of them. *)
Theorem one_wandb_log_per_epoch (t : Trainer) (n : Z) :
  num_epochs t = PInt n -> loaders_nonempty t n ->
  let evs := events_of (train t) in
  exists m : nat,
    Z.of_nat m <= Z.max 0 n /\
    started_epochs evs = map Z.of_nat (seq 0 m) /\
    wandb_logs evs = map (epoch_record t) (seq 0 m) /\
    (forall e, In e (early_stop_epochs evs) -> In e (started_epochs evs)) /\
    (forall k : nat,
       epoch_record t k =
         [ ("epoch", OInt (Z.of_nat k));
           ("train_loss", OFloat (avg_loss_in (Z.of_nat k) (trainer_at t k)));
           ("val_loss", OFloat (avg_val_loss_in (Z.of_nat k) (trainer_at t k))) ] /\
       keys (epoch_record t k) = ["epoch"; "train_loss"; "val_loss"]).
Proof.
  intros Hn Hl. cbv zeta.
  destruct (loop_logs t (Z.to_nat n) 0 (loaders_nonempty_nat t n Hl))
    as (m & Hm & Hs & Hw & Hi).
  exists m. split; [lia|].
  assert (E : events_of (train t) =
              events_of (for_epochs epoch_body (map Z.of_nat (seq 0 (Z.to_nat n)))
                           (trainer_at t 0))).
  { unfold train. unfold bind at 1, get at 1. rewrite Hn.
    unfold bind, lift. cbn [epochs_of trainer_at]. unfold range.
    destruct (for_epochs _ _ t) as [[r t'] ev]. reflexivity. }
  rewrite E. split; [exact Hs|]. split; [exact Hw|]. split; [exact Hi|].
  intros k. split; reflexivity.
Qed.

(** ** The pipeline *)

(** C7, as the code has it: [run] opens with a [wandb.init()] that names no
    project and then updates the configuration with a dictionary of exactly
    the seven hyperparameters [root], [year], [train_batch_size],
    [val_batch_size], [num_epochs], [seed] and [log_dir], holding the values
    of the pipeline; the fixed project name is the one the script passes to
    its own [wandb.init] before it calls [run]. *)
Theorem run_updates_config (self : Pipeline) (pe : pyval -> bool) :
  (exists rest,
     snd (run self pe) =
       WandbInit None :: WandbConfigUpdate (run_config self) :: rest) /\
  run_config self =
    [ ("root", OStr (pipeline_root self));
      ("year", OStr (pipeline_year self));
      ("train_batch_size", OInt (pipeline_train_batch_size self));
      ("val_batch_size", OInt (pipeline_val_batch_size self));
      ("num_epochs", OInt (pipeline_num_epochs self));
      ("seed", OInt (pipeline_seed self));
      ("log_dir", OStr (pipeline_log_dir self)) ] /\
  keys (run_config self) =
    [ "root"; "year"; "train_batch_size"; "val_batch_size"; "num_epochs";
      "seed"; "log_dir" ] /\
  (exists rest,
     snd (main pe) =
       WandbInit (Some "semantic-segmentation") :: WandbInit None ::
       WandbConfigUpdate (run_config Pipeline_default) :: rest).
Proof.
  assert (Hrun : forall q, exists rest,
            snd (run q pe) = WandbInit None :: WandbConfigUpdate (run_config q) :: rest).
  { intros q. unfold run, and_then.
    destruct UNet_new as [m|x]; [|eexists; reflexivity].
    destruct (run_trainer q m pe) as [[t|x] ev]; [|eexists; reflexivity].
    destruct (train t) as [[r t'] ev']. eexists. reflexivity. }
  split; [apply Hrun|]. split; [reflexivity|]. split; [reflexivity|].
  destruct (Hrun Pipeline_default) as [rest Hrest].
  unfold main, and_then.
  destruct (run Pipeline_default pe) as [[[]|x] ev]; cbn [snd] in *; subst ev;
    eexists; reflexivity.
Qed.

(** C8: on a dataset that holds the transform composed by [run],
    [__getitem__] never returns a pair: once the wrapped dataset has
    produced a sample, the stored transform is called again with the image
    and the mask, two arguments against the one of its signature, which
    raises [TypeError]; and the size given to its [Resize] has three
    components, which [Resize] refuses on whatever image it is applied to. *)
Theorem getitem_fails_with_run_transform
    (ds : SemanticSegmentationDataset) (idx : Z) :
  voc_transform (dataset ds) = Some run_transform ->
  (exists e, getitem ds idx = Raise e) /\
  (forall img mask,
     sample (dataset ds) idx = Ok (img, mask) ->
     getitem ds idx = Raise TypeError) /\
  (forall img mask, call_transform run_transform [img; mask] = Raise TypeError) /\
  (exists size rest,
     run_transform = Compose (Resize size :: rest) /\
     List.length size = 3%nat /\ resize_size_ok size = false) /\
  (forall img, call_transform run_transform [img] = Raise ValueError).
Proof.
  intros Ht.
  assert (Hs : forall img mask,
            sample (dataset ds) idx = Ok (img, mask) ->
            getitem ds idx = Raise TypeError).
  { intros img mask Hsample. unfold getitem. now rewrite Hsample, Ht. }
  split.
  - destruct (sample (dataset ds) idx) as [[img mask]|x] eqn:E.
    + exists TypeError. now apply (Hs img mask).
    + exists x. unfold getitem. now rewrite E.
  - split; [exact Hs|]. split; [reflexivity|]. split.
    + exists [224; 224; 3], [ToTensor]. now repeat split.
    + reflexivity.
Qed.

End Properties.

(** C1, on a trainer whose best loss is 2: a loss of 1 resets the counter,
    a loss of 3 increments it. *)
Lemma early_stopping_counter_update_witness :
  let t := set_early_stopping_counter 4
             (set_best_val_loss (float_of_int 2) (demo_trainer 5 (PInt 3) [])) in
  (early_stopping_counter (state_of (early_stopping (float_of_int 1) t)) = 0 /\
   best_val_loss (state_of (early_stopping (float_of_int 1) t)) = float_of_int 1) /\
  (early_stopping_counter (state_of (early_stopping (float_of_int 3) t)) = 5 /\
   best_val_loss (state_of (early_stopping (float_of_int 3) t)) = float_of_int 2).
Proof.
  cbv zeta. split.
  - apply (early_stopping_counter_update
             (set_early_stopping_counter 4
                (set_best_val_loss (float_of_int 2) (demo_trainer 5 (PInt 3) [])))
             (float_of_int 1)).
    vm_compute. reflexivity.
  - apply (early_stopping_counter_update
             (set_early_stopping_counter 4
                (set_best_val_loss (float_of_int 2) (demo_trainer 5 (PInt 3) [])))
             (float_of_int 3)).
    vm_compute. reflexivity.
Defined.

(** C5, for epoch 7 of a trainer that logs to [logs]. *)
Lemma save_checkpoint_record_witness :
  exists checkpoint,
    events_of
      (save_checkpoint 7 70 (-70) (float_of_int 2) (float_of_int 1)
         (demo_trainer 10 (PInt 5) [])) =
    [ TorchSave checkpoint "logs/checkpoint_epoch_7.pt";
      LoggerInfo (CheckpointSaved 7) ] /\
    keys checkpoint =
      [ "epoch"; "model_state_dict"; "optimizer_state_dict";
        "train_loss"; "val_loss" ].
Proof.
  destruct (@save_checkpoint_record counting_torch
              (demo_trainer 10 (PInt 5) []) "logs" 7 70 (-70)
              (float_of_int 2) (float_of_int 1) eq_refl)
    as (checkpoint & path & Hrun & _ & Hk & Hp & _).
  exists checkpoint. rewrite Hrun. subst path. split; [reflexivity|exact Hk].
Defined.

(** C10, on a fresh trainer with patience 0 whose first validation loss, 3,
    improves on infinity. *)
Lemma zero_patience_stops_at_once_witness :
  let t := demo_trainer 5 (PInt 0) [3; 2; 1] in
  float_lt (float_of_int 3) (best_val_loss t) = true /\
  result_of (early_stopping (float_of_int 3) t) = Ok true /\
  started_epochs (events_of (train t)) = [0] /\
  saved_files (events_of (train t)) = [].
Proof.
  cbv zeta. split; [reflexivity|].
  destruct (@zero_patience_stops_at_once counting_torch
              (demo_trainer 5 (PInt 0) [3; 2; 1]) (float_of_int 3)
              eq_refl ltac:(cbn; lia)) as (Hr & _ & Ht).
  split; [exact Hr|].
  destruct (Ht 5 eq_refl ltac:(lia) ltac:(discriminate) ltac:(discriminate))
    as (_ & _ & Hs & _ & Hf).
  split; [exact Hs|exact Hf].
Defined.

(** C9, for the pipeline of the script. *)
Lemma run_passes_log_dir_as_patience_witness :
  (exists t ev,
     @run_trainer counting_torch Pipeline_default 0 (fun _ => false) = (Ok t, ev) /\
     patience t = PStr "logs" /\ log_dir t = PStr "logs") /\
  (exists t ev,
     @run_trainer counting_torch Pipeline_default 0 (fun _ => false) = (Ok t, ev) /\
     result_of (early_stopping (float_of_int 1) t) = Raise TypeError /\
     result_of (train t) = Raise TypeError) /\
  fst (@run counting_torch Pipeline_default (fun _ => false)) = Raise TypeError.
Proof.
  destruct (@run_passes_log_dir_as_patience counting_torch Pipeline_default
              (fun _ => false)) as (Hctor & Hdef & Hrun).
  split; [exact (Hdef eq_refl 0)|]. split.
  - destruct (Hctor 0) as (t & ev & Hb & _ & _ & _ & Hes & Ht).
    exists t, ev. split; [exact Hb|]. split; [now apply Hes|].
    apply Ht; [reflexivity|discriminate|discriminate].
  - apply (Hrun 0); [reflexivity|reflexivity|discriminate|discriminate].
Defined.

(** C4, on the losses 3, nan, 2, 5 followed by 1. *)
Lemma best_val_loss_running_minimum_witness :
  let losses := [float_of_int 3; S754_nan; float_of_int 2; float_of_int 5] in
  exists t,
    @Trainer_init counting_torch 0 (one_batch []) (one_batch [])
      [PInt 4; PInt 2] (fun _ => true) = (Ok t, []) /\
    best_val_loss (early_stopping_calls losses t) = float_of_int 2 /\
    is_minimum (best_val_loss (early_stopping_calls losses t))
      (float_inf :: losses) /\
    float_lt
      (best_val_loss
         (state_of (early_stopping (float_of_int 1)
                      (early_stopping_calls losses t))))
      (best_val_loss (early_stopping_calls losses t)) = true.
Proof.
  cbv zeta. eexists. split; [reflexivity|]. split; [vm_compute; reflexivity|].
  split.
  - eapply (@best_val_loss_running_minimum counting_torch
              0 (one_batch []) (one_batch [])
              [PInt 4; PInt 2] (fun _ => true) _ []
              [float_of_int 3; S754_nan; float_of_int 2; float_of_int 5]
              (float_of_int 1)).
    reflexivity.
  - vm_compute. reflexivity.
Defined.

Lemma demo_loaders_nonempty (n : Z) (p : pyval) (losses : list Z) :
  loaders_nonempty (demo_trainer n p losses) n.
Proof. intros e _. split; discriminate. Qed.

(** C2, on validation losses 3, 2, 2, 2, 1 under a patience of 2: epochs 2
    and 3 fail to improve on the 2 of epoch 1, and the loop is left at
    epoch 3. *)
Lemma train_halts_at_first_trigger_witness :
  let t := demo_trainer 10 (PInt 2) [3; 2; 2; 2; 1] in
  result_of (train t) = Ok tt /\
  early_stop_epochs (events_of (train t)) = [3] /\
  started_epochs (events_of (train t)) = [0; 1; 2; 3] /\
  improves t 2 = false /\ improves t 3 = false.
Proof.
  cbv zeta.
  destruct (@train_halts_at_first_trigger counting_torch
              (demo_trainer 10 (PInt 2) [3; 2; 2; 2; 1]) 10 2 "logs"
              eq_refl eq_refl eq_refl (demo_loaders_nonempty _ _ _))
    as (Hr & _ & Hstop & Hstart & _ & Hstale).
  split; [exact Hr|]. split; [rewrite Hstop; vm_compute; reflexivity|].
  split; [rewrite Hstart; vm_compute; reflexivity|].
  destruct (Hstale eq_refl 3%nat) as [Hlast _].
  destruct (Hlast ltac:(vm_compute; reflexivity)) as [_ Hall].
  split; apply Hall; lia.
Defined.

(** C3, on the same run: epochs 0, 1 and 2 are saved once each, epoch 3,
    where the loop is left, is not. *)
Lemma checkpoints_once_per_saved_epoch_witness :
  let evs := events_of (train (demo_trainer 10 (PInt 2) [3; 2; 2; 2; 1])) in
  count_occ Z.eq_dec (checkpoint_epochs evs) 1 = 1%nat /\
  count_occ Z.eq_dec (checkpoint_epochs evs) 3 = 0%nat /\
  map fst (saved_files evs) =
    [ "logs/checkpoint_epoch_0.pt"; "logs/checkpoint_epoch_1.pt";
      "logs/checkpoint_epoch_2.pt" ] /\
  StronglySorted Z.lt (checkpoint_epochs evs).
Proof.
  cbv zeta.
  destruct (@checkpoints_once_per_saved_epoch counting_torch
              (demo_trainer 10 (PInt 2) [3; 2; 2; 2; 1]) 10 2 "logs"
              eq_refl eq_refl eq_refl (demo_loaders_nonempty _ _ _))
    as (Hone & Hnone & _ & Hfiles & _ & Hsorted).
  split.
  - apply Hone.
    + vm_compute. right. left. reflexivity.
    + vm_compute. intros [E|[]]. discriminate E.
  - split.
    + apply Hnone. vm_compute. left. reflexivity.
    + split; [vm_compute; reflexivity|exact Hsorted].
Defined.

(** C6, on the same run: four epochs, four records. *)
Lemma one_wandb_log_per_epoch_witness :
  let t := demo_trainer 10 (PInt 2) [3; 2; 2; 2; 1] in
  exists m : nat,
    started_epochs (events_of (train t)) = map Z.of_nat (seq 0 m) /\
    wandb_logs (events_of (train t)) = map (epoch_record t) (seq 0 m) /\
    List.length (wandb_logs (events_of (train t))) = 4%nat.
Proof.
  cbv zeta.
  destruct (@one_wandb_log_per_epoch counting_torch
              (demo_trainer 10 (PInt 2) [3; 2; 2; 2; 1]) 10
              eq_refl (demo_loaders_nonempty _ _ _))
    as (m & _ & Hs & Hw & _).
  exists m. split; [exact Hs|]. split; [exact Hw|]. vm_compute. reflexivity.
Defined.

(** C8, on the training dataset [run] builds for the pipeline of the
    script. *)
Lemma getitem_fails_with_run_transform_witness :
  @getitem counting_torch (run_train_dataset Pipeline_default) 0 = Raise TypeError.
Proof.
  destruct (@getitem_fails_with_run_transform counting_torch
              (run_train_dataset Pipeline_default) 0 eq_refl)
    as (_ & Hs & _).
  apply (Hs [0] [0]). reflexivity.
Defined.

(** C7 as it is stated fails: no [wandb.init] issued by [run] names a
    project, here for the pipeline of the script. *)
Lemma run_init_names_no_project :
  ~ exists name,
      In (WandbInit (Some name))
         (snd (@run counting_torch Pipeline_default (fun _ => true))).
Proof.
  intros [name Hin]. vm_compute in Hin.
  repeat (destruct Hin as [Hin|Hin]; [discriminate Hin|]).
  exact Hin.
Qed.

(** * Further properties of the trainer and of the script *)

Section Beyond.
Context `{Torch}.

(** ** The body of an epoch, whatever the loaders yield *)

Lemma epoch_body_cases (e : Z) (t : Trainer) :
  epoch_body e t =
  match loader (train_loader t) e, loader (val_loader t) e with
  | [], _ => (Raise ZeroDivisionError, t, [])
  | _ :: _, [] =>
      (Raise ZeroDivisionError,
       set_model (fst (train_pass (model t) (loader (train_loader t) e) (Int 0))) t,
       [LoggerInfo (TrainingLoss e (avg_loss_in e t))])
  | _ :: _, _ :: _ => epoch_spec e t
  end.
Proof.
  destruct (loader (train_loader t) e) as [|b bs] eqn:Et.
  - unfold epoch_body. unfold bind at 1, get at 1. rewrite Et.
    unfold bind at 1. rewrite train_batches_eq. cbn [train_pass fst snd].
    unfold bind at 1, lift at 1. cbn [len List.length Z.of_nat truediv Z.eqb].
    now rewrite set_model_same.
  - destruct (loader (val_loader t) e) as [|v vs] eqn:Ev.
    + unfold epoch_body. unfold bind at 1, get at 1.
      unfold bind at 1. rewrite train_batches_eq.
      unfold bind at 1, lift at 1.
      rewrite truediv_ok by (rewrite Et; unfold len; cbn [List.length]; lia).
      unfold bind at 1, logger_info at 1, emit at 1.
      unfold bind at 1. rewrite val_batches_eq. cbn [val_loader set_model].
      rewrite Ev. unfold bind at 1, lift at 1.
      cbn [len List.length Z.of_nat truediv Z.eqb app].
      unfold avg_loss_in. now rewrite Et.
    + apply epoch_body_spec; [rewrite Et|rewrite Ev]; discriminate.
Qed.

(** What every outcome of the body leaves in [self]: the state it was
    entered with, the state after the training pass, or the state at the
    end of the epoch. *)
Lemma epoch_body_state (e : Z) (t : Trainer) :
  state_of (epoch_body e t) = t \/
  state_of (epoch_body e t) =
    set_model (fst (train_pass (model t) (loader (train_loader t) e) (Int 0))) t \/
  state_of (epoch_body e t) = after_epoch e t.
Proof.
  rewrite epoch_body_cases.
  destruct (loader (train_loader t) e); [now left|].
  destruct (loader (val_loader t) e); [right; now left|].
  right; right. unfold epoch_spec.
  destruct (int_ge _ _) as [[|]|x]; try reflexivity.
  destruct (checkpoint_path _ _); reflexivity.
Qed.

Lemma for_epochs_invariant (P : Trainer -> Prop) (body : Z -> M bool) :
  (forall e t, P t -> P (state_of (body e t))) ->
  forall l t, P t -> P (state_of (for_epochs body l t)).
Proof.
  intros Hbody. induction l as [|e l IH]; intros t Pt; [exact Pt|].
  rewrite for_epochs_cons. specialize (Hbody e t Pt).
  destruct (body e t) as [[[[|]|x] t1] ev1]; unfold state_of in *; cbn [fst snd] in *;
    try exact Hbody.
  specialize (IH t1 Hbody).
  destruct (for_epochs body l t1) as [[r t2] ev2]. exact IH.
Qed.

Lemma train_invariant (P : Trainer -> Prop) :
  (forall e t, P t -> P (state_of (epoch_body e t))) ->
  forall t, P t -> P (state_of (train t)).
Proof.
  intros Hbody t Pt. unfold train. unfold bind at 1, get at 1.
  unfold bind, lift. destruct (epochs_of (num_epochs t)) as [l|x]; [|exact Pt].
  pose proof (for_epochs_invariant P epoch_body Hbody l t Pt) as Hl.
  destruct (for_epochs epoch_body l t) as [[r t'] ev]. exact Hl.
Qed.

(** ** Runs of [train] that end at once *)

(** X1: with [num_epochs] at most zero [train] returns at once: no event,
    [self] as it was, and no exception, not even under a string patience or
    empty loaders, which are never looked at. *)
Theorem train_without_epochs (t : Trainer) (n : Z) :
  num_epochs t = PInt n -> n <= 0 -> train t = (Ok tt, t, []).
Proof.
  intros Hn Hle. unfold train. unfold bind at 1, get at 1. rewrite Hn.
  unfold bind, lift. cbn [epochs_of]. unfold range.
  replace (Z.to_nat n) with 0%nat by lia. reflexivity.
Qed.

(** X2: when the training loader yields no batch, the first epoch divides
    by zero: [train] raises [ZeroDivisionError] before anything is logged
    or saved and leaves [self] as it was. *)
Theorem train_empty_train_loader (t : Trainer) (n : Z) :
  num_epochs t = PInt n -> 0 < n -> loader (train_loader t) 0 = [] ->
  train t = (Raise ZeroDivisionError, t, []).
Proof.
  intros Hn Hpos He. destruct (train_unroll t n Hn Hpos) as [rest ->].
  rewrite for_epochs_cons, epoch_body_cases, He. reflexivity.
Qed.

(** X3: when only the validation loader yields no batch, the first epoch
    raises [ZeroDivisionError] after its training pass: the model has taken
    the steps of that pass and the training loss was reported, but nothing
    was sent to wandb, nothing was saved, and the two early stopping scalars
    are as they were. *)
Theorem train_empty_val_loader (t : Trainer) (n : Z) :
  num_epochs t = PInt n -> 0 < n ->
  loader (train_loader t) 0 <> [] -> loader (val_loader t) 0 = [] ->
  result_of (train t) = Raise ZeroDivisionError /\
  events_of (train t) = [LoggerInfo (TrainingLoss 0 (avg_loss_in 0 t))] /\
  wandb_logs (events_of (train t)) = [] /\
  saved_files (events_of (train t)) = [] /\
  model (state_of (train t)) =
    fst (train_pass (model t) (loader (train_loader t) 0) (Int 0)) /\
  early_stopping_counter (state_of (train t)) = early_stopping_counter t /\
  best_val_loss (state_of (train t)) = best_val_loss t.
Proof.
  intros Hn Hpos Ht Hv. destruct (train_unroll t n Hn Hpos) as [rest ->].
  rewrite for_epochs_cons, epoch_body_cases, Hv.
  destruct (loader (train_loader t) 0) as [|b bs] eqn:Et; [congruence|].
  now repeat split.
Qed.

(** ** What [train] keeps *)

Lemma same_configuration_refl (t : Trainer) : same_configuration t t.
Proof. now repeat split. Qed.

Lemma same_configuration_after_epoch (e : Z) (t u : Trainer) :
  same_configuration t u -> same_configuration t (state_of (epoch_body e u)).
Proof.
  intros (H1 & H2 & H3 & H4 & H5).
  destruct (epoch_body_state e u) as [->|[->| ->]].
  - now repeat split.
  - now repeat split.
  - unfold same_configuration.
    destruct (after_epoch_fields e u) as (-> & -> & -> & -> & ->).
    now repeat split.
Qed.

(** X4: whatever its outcome, a return, a [break] or an exception, [train]
    leaves the loaders, [num_epochs], [patience] and [log_dir] of the
    trainer as they were. *)
Theorem train_keeps_configuration (t : Trainer) :
  same_configuration t (state_of (train t)).
Proof.
  apply (train_invariant (same_configuration t)).
  - intros e u. apply same_configuration_after_epoch.
  - apply same_configuration_refl.
Qed.

Ltac float_cases :=
  unfold float_lt, float_le, SFltb, SFleb, is_nan;
  repeat match goal with
  | a : float |- _ => destruct a as [[|]|[|]| |[|] ? ?]
  end;
  cbn [SFcompare CompOpp];
  try discriminate; try reflexivity;
  repeat match goal with
  | |- context [Pos.compare_cont Eq ?x ?y] =>
      change (Pos.compare_cont Eq x y) with (Pos.compare x y)
  end;
  repeat match goal with
  | |- context [Z.compare ?x ?y] => destruct (Z.compare_spec x y)
  | |- context [Pos.compare ?x ?y] => destruct (Pos.compare_spec x y)
  end;
  cbn [CompOpp]; try discriminate; try reflexivity; try lia.

Lemma float_lt_trans (a b c : float) :
  float_lt a b = true -> float_lt b c = true -> float_lt a c = true.
Proof. float_cases. Qed.

Lemma float_lt_nan_r (a b : float) : float_lt a b = true -> is_nan b = false.
Proof. float_cases. Qed.

Lemma scalars_sound_update (v : float) (t u : Trainer) :
  scalars_sound t u -> scalars_sound t (es_update v u).
Proof.
  intros (Hc & Hn & Hb). unfold es_update, scalars_sound.
  destruct (float_lt v (best_val_loss u)) eqn:E;
    cbn [early_stopping_counter best_val_loss set_early_stopping_counter
         set_best_val_loss].
  - split; [lia|]. split; [now apply float_lt_not_nan with (best_val_loss u)|].
    right. destruct Hb as [<-|Hb]; [exact E|].
    now apply float_lt_trans with (best_val_loss u).
  - split; [lia|]. split; assumption.
Qed.

(** X5: from a trainer whose counter is not negative and whose
    [best_val_loss] is a number, as [__init__] leaves them, every run of
    [train], whatever its outcome, ends with a counter that is not negative
    and a [best_val_loss] that is a number (a NaN validation loss is never
    taken as best) equal to the one before or strictly below it. *)
Theorem train_keeps_scalars_sound (t : Trainer) :
  0 <= early_stopping_counter t -> is_nan (best_val_loss t) = false ->
  0 <= early_stopping_counter (state_of (train t)) /\
  is_nan (best_val_loss (state_of (train t))) = false /\
  (best_val_loss (state_of (train t)) = best_val_loss t \/
   float_lt (best_val_loss (state_of (train t))) (best_val_loss t) = true).
Proof.
  intros Hc Hn.
  apply (train_invariant (scalars_sound t)).
  - intros e u Hu. destruct (epoch_body_state e u) as [->|[->| ->]].
    + exact Hu.
    + exact Hu.
    + unfold after_epoch. apply scalars_sound_update. exact Hu.
  - split; [exact Hc|]. split; [exact Hn|]. now left.
Qed.

(** ** How long early stopping lets a run go on *)

Lemma triggers_iff_stale (t : Trainer) (p : Z) (k : nat) :
  early_stopping_counter t = 0 ->
  (triggers t p k = true <->
   p <= Z.of_nat k + 1 /\
   (forall j : nat, Z.of_nat k + 1 - p <= Z.of_nat j <= Z.of_nat k ->
      improves t j = false)).
Proof.
  intros H0. unfold triggers. rewrite Z.leb_le.
  destruct (counter_counts_stale_epochs t H0 (S k)) as (Hc & Hstale & Hlast).
  cbv zeta in *. set (c := early_stopping_counter (trainer_at t (S k))) in *.
  split.
  - intros Hpc. split; [lia|]. intros j Hj. apply Hstale. lia.
  - intros (Hpk & Hall).
    destruct (Z_le_gt_dec p c) as [Hle|Hgt]; [exact Hle|].
    assert (Hj : Z.of_nat (Z.to_nat (Z.of_nat (S k) - c - 1)) =
                 Z.of_nat (S k) - c - 1) by lia.
    pose proof (Hlast _ Hj) as Himp.
    rewrite Hall in Himp by lia. discriminate.
Qed.

Lemma length_range (n : Z) : Z.of_nat (List.length (range n)) = Z.max 0 n.
Proof. unfold range. rewrite length_map, length_seq. lia. Qed.

(** X6: on a counter that starts at zero, early stopping never ends a run
    before [patience] epochs have run: a [break] at epoch [e] has
    [patience <= e + 1], at least [min patience num_epochs] epochs are run
    and at least [min (patience - 1) num_epochs] checkpoints are written. *)
Theorem early_stop_not_before_patience (t : Trainer) (n p : Z) (d : string) :
  num_epochs t = PInt n -> patience t = PInt p -> log_dir t = PStr d ->
  loaders_nonempty t n -> early_stopping_counter t = 0 ->
  let evs := events_of (train t) in
  (forall e, In e (early_stop_epochs evs) -> p <= e + 1) /\
  Z.min p n <= Z.of_nat (List.length (started_epochs evs)) /\
  Z.min (p - 1) n <= Z.of_nat (List.length (saved_files evs)).
Proof.
  intros Hn Hp Hd Hl H0. cbv zeta.
  destruct (train_observed t n p d Hn Hp Hd Hl)
    as (_ & _ & Hstop & Hstart & Hfiles & _).
  cbv zeta in Hstop, Hstart, Hfiles. rewrite Hstop, Hstart, Hfiles.
  rewrite length_range, length_map, length_seq.
  destruct (first_trigger t p n) as [k|] eqn:F.
  - apply first_trigger_spec in F. destruct F as (Hk & Tk & _).
    apply (triggers_iff_stale t p k H0) in Tk. destruct Tk as [Hpk _].
    split; [|lia]. intros e [<-|[]]. lia.
  - split; [intros e []|lia].
Qed.

(** X7: on a counter that starts at zero and a patience between one and
    [num_epochs], a run in which none of the first [patience] epochs
    improves on [best_val_loss], as when every validation loss is NaN, is
    left at epoch [patience - 1]: exactly [patience] epochs run and
    [patience - 1] checkpoints are written. *)
Theorem stalled_run_stops_after_patience (t : Trainer) (n p : Z) (d : string) :
  num_epochs t = PInt n -> patience t = PInt p -> log_dir t = PStr d ->
  loaders_nonempty t n -> early_stopping_counter t = 0 ->
  1 <= p <= n ->
  (forall j : nat, Z.of_nat j < p -> improves t j = false) ->
  let evs := events_of (train t) in
  early_stop_epochs evs = [p - 1] /\
  started_epochs evs = range p /\
  checkpoint_epochs evs = range (p - 1).
Proof.
  intros Hn Hp Hd Hl H0 Hpn Hstale. cbv zeta.
  destruct (train_observed t n p d Hn Hp Hd Hl)
    as (_ & _ & Hstop & Hstart & _ & Hck).
  cbv zeta in Hstop, Hstart, Hck. rewrite Hstop, Hstart, Hck.
  assert (F : first_trigger t p n = Some (Z.to_nat (p - 1))).
  { apply first_trigger_spec. split; [lia|]. split.
    - apply (triggers_iff_stale t p _ H0). split; [lia|].
      intros j Hj. apply Hstale. lia.
    - intros i Hi. destruct (triggers t p i) eqn:Ti; [|reflexivity].
      apply (triggers_iff_stale t p i H0) in Ti. lia. }
  rewrite F. replace (Z.of_nat (Z.to_nat (p - 1))) with (p - 1) by lia.
  replace (p - 1 + 1) with p by lia. now repeat split.
Qed.

(** X8: [train] does not reset the early stopping scalars.  Called again on
    the trainer an early-stopped run left, under a patience of at least
    one, it breaks in its first epoch without saving anything when that
    epoch does not improve on the best loss of the earlier run, and does not
    break there when it does. *)
Theorem train_again_after_early_stop (t : Trainer) (n p : Z) (d : string) (k : nat) :
  num_epochs t = PInt n -> patience t = PInt p -> log_dir t = PStr d ->
  loaders_nonempty t n -> 1 <= p ->
  In (Z.of_nat k) (early_stop_epochs (events_of (train t))) ->
  let t' := state_of (train t) in
  p <= early_stopping_counter t' /\
  (improves t' 0 = false ->
     early_stop_epochs (events_of (train t')) = [0] /\
     saved_files (events_of (train t')) = []) /\
  (improves t' 0 = true ->
     ~ In 0 (early_stop_epochs (events_of (train t')))).
Proof.
  intros Hn Hp Hd Hl Hp1 Hin. cbv zeta.
  destruct (train_observed t n p d Hn Hp Hd Hl) as (_ & Hst & Hstop & _).
  cbv zeta in Hstop. rewrite Hstop in Hin.
  destruct (first_trigger t p n) as [s|] eqn:F; [|destruct Hin].
  apply first_trigger_spec in F. destruct F as (Hs & Ts & _).
  rewrite Hst. set (t' := trainer_at t (S s)).
  assert (Hc : p <= early_stopping_counter t')
    by (apply Z.leb_le; exact Ts).
  split; [exact Hc|].
  destruct (trainer_at_fields t (S s)) as (Etl & Evl & En & Ep & Ed).
  fold t' in Etl, Evl, En, Ep, Ed.
  assert (Hn' : num_epochs t' = PInt n) by congruence.
  assert (Hp' : patience t' = PInt p) by congruence.
  assert (Hd' : log_dir t' = PStr d) by congruence.
  assert (Hl' : loaders_nonempty t' n).
  { intros e He. rewrite Etl, Evl. now apply Hl. }
  destruct (train_observed t' n p d Hn' Hp' Hd' Hl')
    as (_ & _ & Hstop' & _ & Hfiles' & _).
  cbv zeta in Hstop', Hfiles'. rewrite Hstop', Hfiles'.
  assert (T0 : triggers t' p 0 = negb (improves t' 0)).
  { unfold triggers. rewrite counter_after_epoch. cbn [trainer_at].
    destruct (improves t' 0); cbn [negb]; [apply Z.leb_gt|apply Z.leb_le]; lia. }
  split.
  - intros Hi. rewrite Hi in T0. cbn [negb] in T0.
    assert (F0 : first_trigger t' p n = Some 0%nat).
    { apply first_trigger_spec. split; [lia|]. split; [exact T0|]. intros i Hi0. lia. }
    rewrite F0. now split.
  - intros Hi. rewrite Hi in T0. cbn [negb] in T0.
    destruct (first_trigger t' p n) as [s'|] eqn:F'; [|intros []].
    intros [E|[]]. apply first_trigger_spec in F'. destruct F' as (_ & Ts' & _).
    replace s' with 0%nat in Ts' by lia. congruence.
Qed.

Lemma after_epoch_set_patience (q : pyval) (e : Z) (u : Trainer) :
  after_epoch e (set_patience q u) = set_patience q (after_epoch e u).
Proof.
  unfold after_epoch, avg_val_loss_in, es_update.
  cbn [set_patience set_model model train_loader val_loader best_val_loss
       early_stopping_counter].
  destruct (float_lt _ _); reflexivity.
Qed.

Lemma trainer_at_set_patience (q : pyval) (t : Trainer) (k : nat) :
  trainer_at (set_patience q t) k = set_patience q (trainer_at t k).
Proof.
  induction k as [|k IH]; [reflexivity|].
  cbn [trainer_at]. now rewrite IH, after_epoch_set_patience.
Qed.

Lemma find_seq_before (f : nat -> bool) (m k : nat) :
  (k < m)%nat -> f k = true ->
  exists k', (k' <= k)%nat /\ find f (seq 0 m) = Some k'.
Proof.
  intros Hk Fk. destruct (find f (seq 0 m)) as [k'|] eqn:F.
  - exists k'. split; [|reflexivity].
    apply find_seq_spec in F. destruct F as (_ & _ & Hmin).
    destruct (Nat.le_gt_cases k' k) as [Hle|Hgt]; [exact Hle|].
    rewrite (Hmin k) in Fk by lia. discriminate.
  - pose proof (find_none _ _ F k) as Hnone.
    rewrite Hnone in Fk; [discriminate|apply in_seq; lia].
Qed.

(** X9: a smaller patience never makes a run longer.  With every other
    field equal, a trainer of patience [q <= p] breaks no later than the one
    of patience [p] and starts no more epochs. *)
Theorem smaller_patience_stops_no_later (t : Trainer) (n p q : Z) (d : string) :
  num_epochs t = PInt n -> patience t = PInt p -> log_dir t = PStr d ->
  loaders_nonempty t n -> q <= p ->
  let evs := events_of (train t) in
  let evs' := events_of (train (set_patience (PInt q) t)) in
  (forall e, In e (early_stop_epochs evs) ->
     exists e', e' <= e /\ In e' (early_stop_epochs evs')) /\
  (List.length (started_epochs evs') <= List.length (started_epochs evs))%nat.
Proof.
  intros Hn Hp Hd Hl Hq. cbv zeta.
  destruct (train_observed t n p d Hn Hp Hd Hl) as (_ & _ & Hstop & Hstart & _).
  destruct (train_observed (set_patience (PInt q) t) n q d Hn eq_refl Hd Hl)
    as (_ & _ & Hstop' & Hstart' & _).
  cbv zeta in Hstop, Hstart, Hstop', Hstart'.
  rewrite Hstop, Hstart, Hstop', Hstart'.
  assert (Tq : forall k, triggers t p k = true ->
                 triggers (set_patience (PInt q) t) q k = true).
  { intros k. unfold triggers. rewrite trainer_at_set_patience.
    cbn [set_patience early_stopping_counter]. rewrite !Z.leb_le. lia. }
  assert (Hlen : forall z, List.length (range z) = Z.to_nat z)
    by (intros z; unfold range; now rewrite length_map, length_seq).
  rewrite !Hlen.
  destruct (first_trigger t p n) as [k|] eqn:F.
  - apply first_trigger_spec in F. destruct F as (Hk & Tk & _).
    destruct (find_seq_before (triggers (set_patience (PInt q) t) q)
                (Z.to_nat n) k ltac:(lia) (Tq k Tk)) as (k' & Hle & F').
    unfold first_trigger. rewrite F'. split; [|lia].
    intros e [<-|[]]. exists (Z.of_nat k'). split; [lia|now left].
  - split; [intros e []|].
    destruct (first_trigger (set_patience (PInt q) t) q n) as [k'|] eqn:F';
      [|lia].
    apply first_trigger_spec in F'. lia.
Qed.

(** ** What the checkpoints hold *)

Lemma train_wandb_observed (t : Trainer) (n p : Z) (d : string) :
  num_epochs t = PInt n -> patience t = PInt p -> log_dir t = PStr d ->
  loaders_nonempty t n ->
  wandb_logs (events_of (train t)) =
  map (epoch_record t)
    (seq 0 (match first_trigger t p n with Some k => S k | None => Z.to_nat n end)).
Proof.
  intros Hn Hp Hd Hl. rewrite (train_trace t n p d Hn Hp Hd Hl).
  destruct (first_trigger t p n) as [s|]; unfold events_of; cbn [snd].
  - rewrite wandb_logs_app, wandb_logs_saved, seq_S, map_app. reflexivity.
  - apply wandb_logs_saved.
Qed.

(** X10: the epoch and the two losses stored in the checkpoints of a run
    are, checkpoint by checkpoint, the ones sent to wandb for the same
    epochs: the list read from the files is the list read from the first
    as many wandb records. *)
Theorem checkpoints_agree_with_wandb (t : Trainer) (n p : Z) (d : string) :
  num_epochs t = PInt n -> patience t = PInt p -> log_dir t = PStr d ->
  loaders_nonempty t n ->
  let evs := events_of (train t) in
  map (fun f => losses_of (snd f)) (saved_files evs) =
  firstn (List.length (saved_files evs)) (map losses_of (wandb_logs evs)).
Proof.
  intros Hn Hp Hd Hl. cbv zeta.
  destruct (train_observed t n p d Hn Hp Hd Hl) as (_ & _ & _ & _ & Hfiles & _).
  cbv zeta in Hfiles.
  rewrite Hfiles, (train_wandb_observed t n p d Hn Hp Hd Hl).
  rewrite !map_map, length_map, length_seq, firstn_map. cbn [snd].
  set (m := match first_trigger t p n with Some k => k | None => Z.to_nat n end).
  set (m' := match first_trigger t p n with Some k => S k | None => Z.to_nat n end).
  assert (Hm : (m <= m')%nat)
    by (subst m m'; destruct (first_trigger t p n); lia).
  replace (firstn m (seq 0 m')) with (seq 0 m).
  - apply map_ext. intros i. reflexivity.
  - replace m' with (m + (m' - m))%nat by lia.
    rewrite seq_app, firstn_app, length_seq, Nat.sub_diag. cbn [firstn].
    rewrite app_nil_r. rewrite <- (length_seq m 0) at 2.
    now rewrite firstn_all.
Qed.

(** X11: after a run that went through all its epochs without [break], the
    newest checkpoint is the one of epoch [num_epochs - 1] and holds the
    state of the model and of the optimizer as the run leaves them. *)
Theorem last_checkpoint_is_final_model (t : Trainer) (n p : Z) (d : string) :
  num_epochs t = PInt n -> patience t = PInt p -> log_dir t = PStr d ->
  loaders_nonempty t n -> 0 < n ->
  early_stop_epochs (events_of (train t)) = [] ->
  exists rest path checkpoint,
    saved_files (events_of (train t)) = rest ++ [(path, checkpoint)] /\
    path = os_path_join d (checkpoint_name (n - 1)) /\
    lookup "epoch" checkpoint = Some (OInt (n - 1)) /\
    lookup "model_state_dict" checkpoint =
      Some (OState (model_state_dict (model (state_of (train t))))) /\
    lookup "optimizer_state_dict" checkpoint =
      Some (OState (optimizer_state_dict (model (state_of (train t))))).
Proof.
  intros Hn Hp Hd Hl Hpos Hnone.
  destruct (train_observed t n p d Hn Hp Hd Hl)
    as (_ & Hst & Hstop & _ & Hfiles & _).
  cbv zeta in Hstop, Hfiles. rewrite Hstop in Hnone.
  destruct (first_trigger t p n) as [k|]; [discriminate|].
  rewrite Hst, Hfiles.
  destruct (Z.to_nat n) as [|j] eqn:Ej; [lia|].
  rewrite seq_S, map_app. cbn [map Nat.add].
  do 3 eexists. split; [reflexivity|].
  replace (Z.of_nat j) with (n - 1) by lia.
  split; [reflexivity|]. split; [reflexivity|].
  replace (n - 1) with (Z.of_nat j) by lia. split; reflexivity.
Qed.

(** ** The names of the checkpoint files *)

Lemma length_append (a b : string) :
  String.length (a ++ b) = (String.length a + String.length b)%nat.
Proof. induction a as [|c a IH]; cbn; [reflexivity|now rewrite IH]. Qed.

Lemma append_cancel_l (a b c : string) : (a ++ b = a ++ c)%string -> b = c.
Proof.
  induction a as [|x a IH]; cbn [append]; [trivial|].
  intros [= E]. now apply IH.
Qed.

Lemma append_cancel_r (c : string) :
  forall a b : string, (a ++ c = b ++ c)%string -> a = b.
Proof.
  induction a as [|x a IH]; intros [|y b] E; cbn [append] in E.
  - reflexivity.
  - apply (f_equal String.length) in E. cbn [String.length] in E.
    rewrite length_append in E. lia.
  - apply (f_equal String.length) in E. cbn [String.length] in E.
    rewrite length_append in E. lia.
  - injection E as -> E. f_equal. now apply IH.
Qed.

Lemma to_int_not_nil (z : Z) :
  Z.to_int z <> Decimal.Pos Decimal.Nil /\ Z.to_int z <> Decimal.Neg Decimal.Nil.
Proof.
  destruct z as [|q|q]; cbn [Z.to_int]; split; try discriminate;
    intros [= E]; now apply (Unsigned.to_uint_nonnil q).
Qed.

Lemma str_of_int_inj (a b : Z) : str_of_int a = str_of_int b -> a = b.
Proof.
  unfold str_of_int. intros E. apply DecimalZ.to_int_inj.
  apply (f_equal NilZero.int_of_string) in E.
  destruct (to_int_not_nil a) as [Ha1 Ha2], (to_int_not_nil b) as [Hb1 Hb2].
  rewrite !NilZero.isi in E by assumption. now injection E.
Qed.

Lemma checkpoint_name_inj (a b : Z) :
  checkpoint_name a = checkpoint_name b -> a = b.
Proof.
  unfold checkpoint_name. intros E. apply append_cancel_l in E.
  apply append_cancel_r in E. now apply str_of_int_inj.
Qed.

Lemma checkpoint_path_inj (d : string) (a b : Z) :
  os_path_join d (checkpoint_name a) = os_path_join d (checkpoint_name b) ->
  a = b.
Proof.
  unfold os_path_join.
  change (startswith_sep (checkpoint_name a)) with false.
  change (startswith_sep (checkpoint_name b)) with false. cbv iota.
  destruct ((String.length d =? 0)%nat || endswith_sep d); intros E.
  - apply append_cancel_l in E. now apply checkpoint_name_inj.
  - apply append_cancel_l in E. apply (append_cancel_l "/") in E.
    now apply checkpoint_name_inj.
Qed.

(** X12: within a run no checkpoint overwrites another: the files written
    have pairwise different paths, as different epochs have different
    file names. *)
Theorem checkpoint_paths_distinct (t : Trainer) (n p : Z) (d : string) :
  num_epochs t = PInt n -> patience t = PInt p -> log_dir t = PStr d ->
  loaders_nonempty t n ->
  NoDup (map fst (saved_files (events_of (train t)))) /\
  (forall a b : Z, checkpoint_name a = checkpoint_name b -> a = b).
Proof.
  intros Hn Hp Hd Hl. split; [|exact checkpoint_name_inj].
  destruct (train_observed t n p d Hn Hp Hd Hl) as (_ & _ & _ & _ & Hfiles & _).
  cbv zeta in Hfiles. rewrite Hfiles, map_map. cbn [fst].
  apply Injective_map_NoDup; [|apply seq_NoDup].
  intros i j E. apply checkpoint_path_inj in E. lia.
Qed.

(** ** The script never trains *)




(** ** __getitem__ *)



(** ** __init__ *)


End Beyond.

(** X1, with a string patience and no batch at all. *)
Lemma train_without_epochs_witness :
  train (demo_trainer_on no_batch no_batch 0 (PStr "logs")) =
  (Ok tt, demo_trainer_on no_batch no_batch 0 (PStr "logs"), []).
Proof.
  apply (@train_without_epochs counting_torch
           (demo_trainer_on no_batch no_batch 0 (PStr "logs")) 0 eq_refl).
  lia.
Defined.

(** X2, for three epochs asked on a training loader without batches. *)
Lemma train_empty_train_loader_witness :
  train (demo_trainer_on no_batch (one_batch []) 3 (PInt 5)) =
  (Raise ZeroDivisionError,
   demo_trainer_on no_batch (one_batch []) 3 (PInt 5), []).
Proof.
  apply (@train_empty_train_loader counting_torch
           (demo_trainer_on no_batch (one_batch []) 3 (PInt 5)) 3 eq_refl);
    [lia|reflexivity].
Defined.

(** X3, for three epochs asked on a validation loader without batches. *)
Lemma train_empty_val_loader_witness :
  let t := demo_trainer_on (one_batch []) no_batch 3 (PInt 5) in
  result_of (train t) = Raise ZeroDivisionError /\
  wandb_logs (events_of (train t)) = [] /\
  model (state_of (train t)) = 1.
Proof.
  cbv zeta.
  destruct (@train_empty_val_loader counting_torch
              (demo_trainer_on (one_batch []) no_batch 3 (PInt 5)) 3
              eq_refl ltac:(lia) ltac:(discriminate) eq_refl)
    as (Hr & _ & Hw & _ & Hm & _).
  split; [exact Hr|]. split; [exact Hw|]. rewrite Hm. reflexivity.
Defined.

(** X5, on the run of losses 3, 2, 2, 2 under a patience of 2. *)
Lemma train_keeps_scalars_sound_witness :
  let t := demo_trainer 10 (PInt 2) [3; 2; 2; 2; 1] in
  0 <= early_stopping_counter (state_of (train t)) /\
  is_nan (best_val_loss (state_of (train t))) = false /\
  float_lt (best_val_loss (state_of (train t))) (best_val_loss t) = true.
Proof.
  cbv zeta.
  destruct (@train_keeps_scalars_sound counting_torch
              (demo_trainer 10 (PInt 2) [3; 2; 2; 2; 1])
              ltac:(cbn; lia) eq_refl) as (Hc & Hn & _).
  split; [exact Hc|]. split; [exact Hn|]. vm_compute. reflexivity.
Defined.

(** X6, on the same run: the break comes at epoch 3, after two epochs. *)
Lemma early_stop_not_before_patience_witness :
  let evs := events_of (train (demo_trainer 10 (PInt 2) [3; 2; 2; 2; 1])) in
  In 3 (early_stop_epochs evs) /\ 2 <= 3 + 1 /\
  Z.min 2 10 <= Z.of_nat (List.length (started_epochs evs)).
Proof.
  cbv zeta.
  destruct (@early_stop_not_before_patience counting_torch
              (demo_trainer 10 (PInt 2) [3; 2; 2; 2; 1]) 10 2 "logs"
              eq_refl eq_refl eq_refl (demo_loaders_nonempty _ _ _) eq_refl)
    as (Hstop & Hstart & _).
  assert (Hin : In 3 (early_stop_epochs
                   (events_of (train (demo_trainer 10 (PInt 2) [3; 2; 2; 2; 1])))))
    by (vm_compute; left; reflexivity).
  split; [exact Hin|]. split; [exact (Hstop 3 Hin)|exact Hstart].
Defined.

Lemma stalled_demo_loaders_nonempty :
  loaders_nonempty
    (set_best_val_loss (float_of_int 1) (demo_trainer 10 (PInt 3) [5; 5; 5; 5])) 10.
Proof. intros e _. split; discriminate. Qed.

(** X7, on a trainer whose best loss is 1 and whose validation losses are
    5, 5, 5, 5 under a patience of 3. *)
Lemma stalled_run_stops_after_patience_witness :
  let t := set_best_val_loss (float_of_int 1)
             (demo_trainer 10 (PInt 3) [5; 5; 5; 5]) in
  early_stop_epochs (events_of (train t)) = [2] /\
  started_epochs (events_of (train t)) = [0; 1; 2].
Proof.
  cbv zeta.
  destruct (@stalled_run_stops_after_patience counting_torch
              (set_best_val_loss (float_of_int 1)
                 (demo_trainer 10 (PInt 3) [5; 5; 5; 5]))
              10 3 "logs" eq_refl eq_refl eq_refl
              stalled_demo_loaders_nonempty eq_refl ltac:(lia))
    as (Hstop & Hstart & _).
  - intros [|[|[|j]]] Hj; [vm_compute; reflexivity ..|lia].
  - split; [exact Hstop|exact Hstart].
Defined.

(** X8, on the run of losses 3, 2, 2, 2 under a patience of 2: run again,
    the trainer meets the loss 3 against its best 2 and breaks at once. *)
Lemma train_again_after_early_stop_witness :
  let t' := state_of (train (demo_trainer 10 (PInt 2) [3; 2; 2; 2; 1])) in
  improves t' 0 = false /\
  early_stop_epochs (events_of (train t')) = [0] /\
  saved_files (events_of (train t')) = [].
Proof.
  cbv zeta.
  destruct (@train_again_after_early_stop counting_torch
              (demo_trainer 10 (PInt 2) [3; 2; 2; 2; 1]) 10 2 "logs" 3
              eq_refl eq_refl eq_refl (demo_loaders_nonempty _ _ _)
              ltac:(lia) ltac:(vm_compute; left; reflexivity))
    as (_ & Hstale & _).
  assert (Hi : improves
                 (state_of (train (demo_trainer 10 (PInt 2) [3; 2; 2; 2; 1])))
                 0 = false) by (vm_compute; reflexivity).
  split; [exact Hi|exact (Hstale Hi)].
Defined.

(** X9, on losses 3, 2, 2, 2, 2: a patience of 3 breaks at epoch 4, a
    patience of 2 no later. *)
Lemma smaller_patience_stops_no_later_witness :
  let t := demo_trainer 10 (PInt 3) [3; 2; 2; 2; 2; 1] in
  In 4 (early_stop_epochs (events_of (train t))) /\
  exists e', e' <= 4 /\
    In e' (early_stop_epochs (events_of (train (set_patience (PInt 2) t)))).
Proof.
  cbv zeta.
  destruct (@smaller_patience_stops_no_later counting_torch
              (demo_trainer 10 (PInt 3) [3; 2; 2; 2; 2; 1]) 10 3 2 "logs"
              eq_refl eq_refl eq_refl (demo_loaders_nonempty _ _ _)
              ltac:(lia)) as (Hstop & _).
  assert (Hin : In 4 (early_stop_epochs
                   (events_of (train (demo_trainer 10 (PInt 3) [3; 2; 2; 2; 2; 1])))))
    by (vm_compute; left; reflexivity).
  split; [exact Hin|exact (Hstop 4 Hin)].
Defined.

(** X10, on the run of losses 3, 2, 2, 2 under a patience of 2. *)
Lemma checkpoints_agree_with_wandb_witness :
  let evs := events_of (train (demo_trainer 10 (PInt 2) [3; 2; 2; 2; 1])) in
  List.length (saved_files evs) = 3%nat /\
  map (fun f => losses_of (snd f)) (saved_files evs) =
  firstn 3 (map losses_of (wandb_logs evs)).
Proof.
  cbv zeta.
  pose proof (@checkpoints_agree_with_wandb counting_torch
                (demo_trainer 10 (PInt 2) [3; 2; 2; 2; 1]) 10 2 "logs"
                eq_refl eq_refl eq_refl (demo_loaders_nonempty _ _ _)) as Hagree.
  cbv zeta in Hagree.
  assert (Hlen : List.length
                   (saved_files
                      (events_of (train (demo_trainer 10 (PInt 2) [3; 2; 2; 2; 1]))))
                 = 3%nat) by (vm_compute; reflexivity).
  split; [exact Hlen|]. rewrite Hlen in Hagree. exact Hagree.
Defined.

(** X11, on three epochs of losses 3, 2, 1 under a patience of 5. *)
Lemma last_checkpoint_is_final_model_witness :
  let t := demo_trainer 3 (PInt 5) [3; 2; 1] in
  exists rest checkpoint,
    saved_files (events_of (train t)) =
      rest ++ [("logs/checkpoint_epoch_2.pt", checkpoint)] /\
    lookup "model_state_dict" checkpoint = Some (OState 3) /\
    model (state_of (train t)) = 3.
Proof.
  cbv zeta.
  destruct (@last_checkpoint_is_final_model counting_torch
              (demo_trainer 3 (PInt 5) [3; 2; 1]) 3 5 "logs"
              eq_refl eq_refl eq_refl (demo_loaders_nonempty _ _ _)
              ltac:(lia) ltac:(vm_compute; reflexivity))
    as (rest & path & checkpoint & Hfiles & Hpath & _ & Hmodel & _).
  exists rest, checkpoint. subst path. split; [exact Hfiles|].
  split; [exact Hmodel|]. vm_compute. reflexivity.
Defined.

(** X12, on the run of losses 3, 2, 2, 2 under a patience of 2. *)
Lemma checkpoint_paths_distinct_witness :
  NoDup (map fst (saved_files
                    (events_of (train (demo_trainer 10 (PInt 2) [3; 2; 2; 2; 1]))))).
Proof.
  apply (@checkpoint_paths_distinct counting_torch
           (demo_trainer 10 (PInt 2) [3; 2; 2; 2; 1]) 10 2 "logs"
           eq_refl eq_refl eq_refl (demo_loaders_nonempty _ _ _)).
Defined.

